(** * loggy: a shallow embedding of the logging engine

    The development follows the Go package [loggy]: the [Severity]
    constants, the [Logger] record, construction with functional options,
    the write path [Log], the per-level wrappers, [Fatal]/[Fatalf] and the
    runtime mutators [UpdateWriter] and [SetLevel].

    Go strings are byte strings: they are modelled by [string].  A
    [Severity] is a [uint32]: it is modelled by [N]; the code never does
    arithmetic on it, so no wrap-around occurs.  A [Caller] is an [int]:
    it is modelled by [Z].  Panics and the traffic with the destination
    (lock, write, unlock) are explicit: a Go function with effects is a
    function from the trace of events so far to a result and a new trace. *)

From Stdlib Require Import String Ascii List ZArith NArith Lia Bool.
From Stdlib Require Import DecimalString.
Import ListNotations.

Local Open Scope string_scope.

(** ** Byte-string helpers *)

Definition LF : ascii := "010"%char.
Definition NL : string := String LF EmptyString.

(** [s[i] == c]; false when [i] is out of range (the code only reads
    indices it has checked). *)
Definition byte_is (s : string) (i : nat) (c : ascii) : bool :=
  match String.get i s with
  | Some d => Ascii.eqb d c
  | None => false
  end.

(** The last byte of [s], when [s] is not empty. *)
Fixpoint last_byte (s : string) : option ascii :=
  match s with
  | EmptyString => None
  | String c EmptyString => Some c
  | String _ rest => last_byte rest
  end.

Definition ends_with_newline (s : string) : bool :=
  match last_byte s with
  | Some c => Ascii.eqb c LF
  | None => false
  end.

Fixpoint leading_newlines (cs : list ascii) : nat :=
  match cs with
  | c :: rest => if Ascii.eqb c LF then S (leading_newlines rest) else 0
  | [] => 0
  end.

(** Number of line terminators at the very end of [s]. *)
Definition trailing_newlines (s : string) : nat :=
  leading_newlines (rev (list_ascii_of_string s)).

(** ** Severity (constants of the package) *)

Definition Severity := N.

Definition DebugIssuer : Severity := 0%N.
Definition InfoIssuer : Severity := 1%N.
Definition WarnIssuer : Severity := 2%N.
Definition ErrorIssuer : Severity := 3%N.
Definition FatalIssuer : Severity := 4%N.
Definition DisableIssuer : Severity := 5%N.

(** ** Destinations

    An [io.Writer] value holds a destination.  [PlainWriter] and
    [LockWriter] are references (pointers, as [*os.File], [*bytes.Buffer]
    or the [*dummyLocker] of the tests), the second with [Lock]/[Unlock] in
    its method set, so that it satisfies the [locker] interface; two of
    them are equal when they are the same reference.
    [UncomparableLocker dyn val] is a lock-capable destination held by
    value whose dynamic type, numbered [dyn], is not comparable in Go (a
    slice, map or function type, or a struct with such a field).  The nil
    interface is [None]. *)

Inductive Writer : Type :=
| PlainWriter (ref : nat)
| LockWriter (ref : nat)
| UncomparableLocker (dyn : nat) (val : nat).

Definition Writer_eqb (a b : Writer) : bool :=
  match a, b with
  | PlainWriter x, PlainWriter y => Nat.eqb x y
  | LockWriter x, LockWriter y => Nat.eqb x y
  | UncomparableLocker s x, UncomparableLocker t y =>
      Nat.eqb s t && Nat.eqb x y
  | _, _ => false
  end.

Definition is_some {A : Type} (o : option A) : bool :=
  match o with
  | Some _ => true
  | None => false
  end.

(** The type assertion [w.(locker)]: the locker, and the [ok] flag as
    [is_some] of it. *)
Definition as_locker (w : option Writer) : option Writer :=
  match w with
  | Some (LockWriter r) => Some (LockWriter r)
  | Some (UncomparableLocker t v) => Some (UncomparableLocker t v)
  | _ => None
  end.

Inductive Event : Type :=
| EvLock (w : Writer)
| EvWrite (w : Writer) (p : string)
| EvUnlock (w : Writer).

Definition Trace := list Event.

(** ** Message components ([interface{}] values) *)

Inductive Value : Type :=
| VCaller (depth : Z)
| VString (s : string)
| VInt (n : Z)
| VBool (b : bool).

(** ** The logger *)

Record Logger : Type := mkLogger {
  name : string;
  writer : option Writer;
  minLevel : Severity;
  timeFormat : string;
  useUTC : bool;
  severityNames : list string
}.

Definition set_writer (l : Logger) (w : option Writer) : Logger :=
  mkLogger (name l) w (minLevel l) (timeFormat l) (useUTC l) (severityNames l).

Definition set_minLevel (l : Logger) (lv : Severity) : Logger :=
  mkLogger (name l) (writer l) lv (timeFormat l) (useUTC l) (severityNames l).

Definition set_timeFormat (l : Logger) (f : string) : Logger :=
  mkLogger (name l) (writer l) (minLevel l) f (useUTC l) (severityNames l).

Definition set_useUTC (l : Logger) (u : bool) : Logger :=
  mkLogger (name l) (writer l) (minLevel l) (timeFormat l) u (severityNames l).

Definition set_severityNames (l : Logger) (ns : list string) : Logger :=
  mkLogger (name l) (writer l) (minLevel l) (timeFormat l) (useUTC l) ns.

(** ** Panics and effects *)

Inductive Panic : Type :=
| PanicMsg (s : string)
| PanicIndex (i : N) (len : nat)
| PanicSliceBounds
| PanicNilDeref
| PanicUncomparable.

Inductive Result (A : Type) : Type :=
| Ret (a : A)
| Panicked (p : Panic).

Arguments Ret {A} a.
Arguments Panicked {A} p.

(** [a != b] on two interface values: values of different dynamic types
    differ; the comparison of two values of one dynamic type that is not
    comparable is a run-time panic. *)
Definition iface_neq (a b : option Writer) : Result bool :=
  match a, b with
  | Some (UncomparableLocker s _), Some (UncomparableLocker t _) =>
      if Nat.eqb s t then Panicked PanicUncomparable else Ret true
  | Some x, Some y => Ret (negb (Writer_eqb x y))
  | None, None => Ret false
  | _, _ => Ret true
  end.

Definition Go (A : Type) : Type := Trace -> Result A * Trace.

Definition ret {A : Type} (a : A) : Go A := fun tr => (Ret a, tr).

Definition throw {A : Type} (p : Panic) : Go A := fun tr => (Panicked p, tr).

Definition bind {A B : Type} (m : Go A) (k : A -> Go B) : Go B :=
  fun tr =>
    match m tr with
    | (Ret a, tr') => k a tr'
    | (Panicked p, tr') => (Panicked p, tr')
    end.

Notation "x <- m ;; k" := (bind m (fun x => k))
  (at level 61, m at next level, right associativity).
Notation "m ;;; k" := (bind m (fun _ => k))
  (at level 61, right associativity).

Definition lift {A : Type} (r : Result A) : Go A :=
  fun tr => (r, tr).

Definition emit (e : Event) : Go unit := fun tr => (Ret tt, (tr ++ [e])%list).

(** [defer d] in front of [m]: [d] runs when [m] is over, also when [m]
    panicked. *)
Definition defer {A : Type} (d : Go unit) (m : Go A) : Go A :=
  fun tr =>
    let '(r, tr') := m tr in
    match d tr' with
    | (Ret _, tr'') => (r, tr'')
    | (Panicked p, tr'') => (Panicked p, tr'')
    end.

(** [xs[i]] on a slice. *)
Definition index (xs : list string) (i : N) : Go string :=
  match nth_error xs (N.to_nat i) with
  | Some s => ret s
  | None => throw (PanicIndex i (List.length xs))
  end.

(** ** What the package takes from the Go library and the run time *)

Class Platform : Type := {
  Time : Type;
  time_UTC : Time -> Time;
  time_Format : Time -> string -> string;
  filepath_Base : string -> string;
  strconv_Itoa : Z -> string;
  fmt_Sprint : list Value -> string;
  fmt_Sprintf : string -> list Value -> string;
  (** the error of a write (its text), given what happened before *)
  writer_Write : Writer -> string -> Trace -> option string
}.

(** What a call finds around it: the clock and the call stack, frame 0
    being [Log] itself; a frame is a file and a line. *)
Record Ambient `{Platform} : Type := mkAmbient {
  time_Now : Time;
  runtime_Caller : Z -> option (string * Z)
}.

Module Loggy.

Section Engine.

Context `{P : Platform}.

(** *** Construction *)

(** The options the package makes: the results of its three option
    constructors.  In Go an [Option] is any function that takes a pointer to
    the logger; a nil function value and a function written by a caller
    are not values of this type,
    and what is proved of [New] over a list of options is proved for lists
    of options made by the package. *)
Inductive Option : Type :=
| WithTimeFormat (format : string)
| WithUTC (utc : bool)
| WithSeverityNames (names : list string).

Definition apply_Option (opt : Option) (l : Logger) : Logger :=
  match opt with
  | WithTimeFormat format => set_timeFormat l format
  | WithUTC utc => set_useUTC l utc
  | WithSeverityNames names =>
      if Nat.eqb (List.length names) 5 then set_severityNames l names else l
  end.

Definition invalid_name (n : string) : bool :=
  (String.length n <? 3)%nat
  || negb (byte_is n 0 ":"%char)
  || negb (byte_is n 1 " "%char)
  || negb (byte_is n (String.length n - 1) ":"%char).

Definition New (n : string) (w : option Writer) (minLvl : Severity)
    (opts : list Option) : Result Logger :=
  if invalid_name n then
    Panicked (PanicMsg "loggy: invalid name format - use ': name:'")
  else if match w with None => true | Some _ => false end
          || (DisableIssuer <? minLvl)%N then
    Panicked (PanicMsg "loggy: invalid writer or severity level")
  else
    let l := mkLogger n w minLvl "2006-01-02 15:04:05.000000" false
               ["debug:"; "info:"; "warn:"; "error:"; "fatal:"] in
    Ret (fold_left (fun l opt => apply_Option opt l) opts l).

(** *** Accessors and mutators *)

Definition Name (l : Logger) : Result string :=
  let n := String.length (name l) in
  if (n <? 3)%nat then Panicked PanicSliceBounds
  else Ret (substring 2 (n - 1 - 2) (name l)).

Definition UpdateWriter (l : Logger) (w : option Writer) : Go (bool * Logger) :=
  match w with
  | None => ret (false, l)
  | Some _ =>
      let currentLocker := as_locker (writer l) in
      let hasLock := is_some currentLocker in
      let newLocker := as_locker w in
      let newHasLock := is_some newLocker in
      differ <- (if hasLock && newHasLock
                 then lift (iface_neq currentLocker newLocker)
                 else ret false) ;;
      if differ
      then ret (false, l)
      else
        match currentLocker with
        | Some c =>
            emit (EvLock c) ;;;
            defer (emit (EvUnlock c)) (ret (true, set_writer l w))
        | None => ret (true, set_writer l w)
        end
  end.

Definition SetLevel (l : Logger) (level : Severity) : Logger :=
  if (level <=? DisableIssuer)%N then set_minLevel l level else l.

Definition GetLevel (l : Logger) : Severity := minLevel l.

(** *** The write path *)

Definition clamp_skip (depth : Z) : Z :=
  if (depth <? 0)%Z then 0%Z
  else if (99 <? depth)%Z then 99%Z
  else depth.

(** The message of the line, from the components that remain. *)
Definition render (msg : list Value) : string :=
  match msg with
  | [VString s] => s
  | [v] => fmt_Sprint [v]
  | _ => fmt_Sprint msg
  end.

(** The call-site segment, at [runtime.Caller(skip + 2)]. *)
Definition call_site (env : Ambient) (skip : Z) : string :=
  match runtime_Caller env (skip + 2)%Z with
  | Some (file, line) =>
      " " ++ filepath_Base file ++ ":" ++ strconv_Itoa line ++ ":"
  | None => ""
  end.

Definition ensure_newline (b : string) : string :=
  if (String.length b =? 0)%nat || negb (byte_is b (String.length b - 1) LF)
  then b ++ NL else b.

Definition io_WriteString (w : option Writer) (s : string) : Go (option string) :=
  match w with
  | None => throw PanicNilDeref
  | Some d => fun tr => (Ret (writer_Write d s tr), (tr ++ [EvWrite d s])%list)
  end.

(** [Log] from the point where the builder is filled: [skip] and [msg]
    are the values the variables have there. *)
Definition Log_emit (env : Ambient) (l : Logger) (level : Severity)
    (skip : Z) (msg : list Value) : Go (option string) :=
  let now := if useUTC l then time_UTC (time_Now env) else time_Now env in
  label <- index (severityNames l) level ;;
  let b := time_Format now (timeFormat l) ++ name l ++ label in
  let b := b ++ call_site env skip in
  let b := b ++ " " in
  let b := b ++ render msg in
  let b := ensure_newline b in
  match as_locker (writer l) with
  | Some lock =>
      emit (EvLock lock) ;;;
      defer (emit (EvUnlock lock)) (io_WriteString (writer l) b)
  | None => io_WriteString (writer l) b
  end.

Definition Log (env : Ambient) (l : Logger) (level : Severity)
    (msg : list Value) : Go (option string) :=
  if (level <? minLevel l)%N || (DisableIssuer <=? level)%N
     || (List.length msg =? 0)%nat
  then ret None
  else
    match msg with
    | VCaller depth :: rest =>
        let skip := clamp_skip depth in
        if (List.length rest =? 0)%nat then ret None
        else Log_emit env l level skip rest
    | _ => Log_emit env l level 0%Z msg
    end.

(** *** Per-level wrappers *)

Definition Debug (env : Ambient) (l : Logger) (msg : list Value) :=
  Log env l DebugIssuer msg.

Definition Debugf (env : Ambient) (l : Logger) (format : string)
    (args : list Value) :=
  Log env l DebugIssuer [VString (fmt_Sprintf format args)].

Definition Info (env : Ambient) (l : Logger) (msg : list Value) :=
  Log env l InfoIssuer msg.

Definition Infof (env : Ambient) (l : Logger) (format : string)
    (args : list Value) :=
  Log env l InfoIssuer [VString (fmt_Sprintf format args)].

Definition Warn (env : Ambient) (l : Logger) (msg : list Value) :=
  Log env l WarnIssuer msg.

Definition Warnf (env : Ambient) (l : Logger) (format : string)
    (args : list Value) :=
  Log env l WarnIssuer [VString (fmt_Sprintf format args)].

Definition Error (env : Ambient) (l : Logger) (msg : list Value) :=
  Log env l ErrorIssuer msg.

Definition Errorf (env : Ambient) (l : Logger) (format : string)
    (args : list Value) :=
  Log env l ErrorIssuer [VString (fmt_Sprintf format args)].

(** *** Fatal *)

Definition Fatal (env : Ambient) (l : Logger) (msg : list Value)
    : Go (option string) :=
  err <- Log env l FatalIssuer msg ;;
  bare <- lift (Name l) ;;
  label <- index (severityNames l) FatalIssuer ;;
  let pm := bare ++ label in
  let pm := match err with Some e => pm ++ e | None => pm end in
  throw (PanicMsg pm).

Definition Fatalf (env : Ambient) (l : Logger) (format : string)
    (args : list Value) : Go (option string) :=
  err <- Log env l FatalIssuer [VString (fmt_Sprintf format args)] ;;
  bare <- lift (Name l) ;;
  label <- index (severityNames l) FatalIssuer ;;
  let pm := bare ++ label in
  let pm := match err with Some e => pm ++ e | None => pm end in
  throw (PanicMsg pm).

End Engine.

End Loggy.

Import Loggy.

(** ** Reading a trace *)

(** The payloads handed to the destination, in order. *)
Fixpoint written (tr : Trace) : list string :=
  match tr with
  | [] => []
  | EvWrite _ p :: rest => p :: written rest
  | _ :: rest => written rest
  end.

(** The lock taken around a write, for a destination with the capability. *)
Definition lock_events (w : Writer) : Trace :=
  match w with
  | LockWriter _ => [EvLock w]
  | UncomparableLocker _ _ => [EvLock w]
  | PlainWriter _ => []
  end.

Definition unlock_events (w : Writer) : Trace :=
  match w with
  | LockWriter _ => [EvUnlock w]
  | UncomparableLocker _ _ => [EvUnlock w]
  | PlainWriter _ => []
  end.

(** The leading caller-depth marker of a message sequence: the depth
    [Log] resolves the call site at, and the components that remain. *)
Definition split_caller (msg : list Value) : Z * list Value :=
  match msg with
  | VCaller depth :: rest => (clamp_skip depth, rest)
  | _ => (0%Z, msg)
  end.

(** The line [Log] hands to the destination for the label [label], the
    depth [skip] and the remaining components [rest]: what the builder
    holds when the write is made. *)
Definition entry `{Platform} (env : Ambient) (l : Logger) (label : string)
    (skip : Z) (rest : list Value) : string :=
  let now := if useUTC l then time_UTC (time_Now env) else time_Now env in
  let site :=
    match runtime_Caller env (skip + 2)%Z with
    | Some (file, line) =>
        " " ++ filepath_Base file ++ ":" ++ strconv_Itoa line ++ ":"
    | None => ""
    end in
  let body := render rest in
  time_Format now (timeFormat l) ++ name l ++ label ++ site ++ " " ++ body
  ++ (if ends_with_newline body then "" else NL).

(** The invariants of a configuration (the data model of the engine). *)
Record well_formed (l : Logger) : Prop := mk_well_formed {
  wf_name : invalid_name (name l) = false;
  wf_writer : writer l <> None;
  wf_level : (minLevel l <= DisableIssuer)%N;
  wf_labels : List.length (severityNames l) = 5%nat
}.

(** Runtime operations on an engine, and a run of them. *)
Inductive Op : Type :=
| OpSetLevel (level : Severity)
| OpUpdateWriter (w : option Writer).

Definition run_op (st : Logger * Trace) (op : Op) : Logger * Trace :=
  let '(l, tr) := st in
  match op with
  | OpSetLevel level => (SetLevel l level, tr)
  | OpUpdateWriter w =>
      match UpdateWriter l w tr with
      | (Ret (_, l'), tr') => (l', tr')
      | (Panicked _, tr') => (l, tr')
      end
  end.

Definition run_ops (l : Logger) (tr : Trace) (ops : list Op)
    : Logger * Trace :=
  fold_left run_op ops (l, tr).

(** Which field an option sets ([WithSeverityNames] sets the labels only
    when it holds five of them). *)
Definition sets_timeFormat (opt : Option) : bool :=
  match opt with
  | WithTimeFormat _ => true
  | _ => false
  end.

Definition sets_useUTC (opt : Option) : bool :=
  match opt with
  | WithUTC _ => true
  | _ => false
  end.

Definition sets_severityNames (opt : Option) : bool :=
  match opt with
  | WithSeverityNames names => Nat.eqb (List.length names) 5
  | _ => false
  end.


(** Whether a call is let through by the guards of [Log]. *)
Definition accepted (l : Logger) (level : Severity) (msg : list Value) : bool :=
  (minLevel l <=? level)%N && (level <? DisableIssuer)%N
  && negb (List.length (snd (split_caller msg)) =? 0)%nat.

(** ** The package-level logger and its entry points *)

Module Pkg.

Section DefaultLogger.

Context `{P : Platform}.

(** [os.Stdout] is a [*os.File]: it has no [Lock] and [Unlock]. *)
Definition os_Stdout : Writer := PlainWriter 1.

(** The value the variable [Default] starts with, [arg0] being
    [os.Args[0]]. *)
Definition Default (arg0 : string) : Result Logger :=
  New (": " ++ filepath_Base arg0 ++ ":") (Some os_Stdout) DebugIssuer
    [WithSeverityNames ["debug:"; "info:"; "warn:"; "error:"; "fatal:"]].

(** The package-level functions read the variable [Default]: [d] is the
    logger it points to when the call is made. *)
Definition Debug (env : Ambient) (d : Logger) (msg : list Value) :=
  Log env d DebugIssuer msg.

Definition Debugf (env : Ambient) (d : Logger) (format : string)
    (args : list Value) :=
  Log env d DebugIssuer [VString (fmt_Sprintf format args)].

Definition Info (env : Ambient) (d : Logger) (msg : list Value) :=
  Log env d InfoIssuer msg.

Definition Infof (env : Ambient) (d : Logger) (format : string)
    (args : list Value) :=
  Log env d InfoIssuer [VString (fmt_Sprintf format args)].

Definition Warn (env : Ambient) (d : Logger) (msg : list Value) :=
  Log env d WarnIssuer msg.

Definition Warnf (env : Ambient) (d : Logger) (format : string)
    (args : list Value) :=
  Log env d WarnIssuer [VString (fmt_Sprintf format args)].

Definition Error (env : Ambient) (d : Logger) (msg : list Value) :=
  Log env d ErrorIssuer msg.

Definition Errorf (env : Ambient) (d : Logger) (format : string)
    (args : list Value) :=
  Log env d ErrorIssuer [VString (fmt_Sprintf format args)].

Definition Fatal (env : Ambient) (d : Logger) (msg : list Value)
    : Go (option string) :=
  err <- Log env d FatalIssuer msg ;;
  bare <- lift (Name d) ;;
  label <- index (severityNames d) FatalIssuer ;;
  let pm := bare ++ label in
  let pm := match err with Some e => pm ++ e | None => pm end in
  throw (PanicMsg pm).

Definition Fatalf (env : Ambient) (d : Logger) (format : string)
    (args : list Value) : Go (option string) :=
  err <- Log env d FatalIssuer [VString (fmt_Sprintf format args)] ;;
  bare <- lift (Name d) ;;
  label <- index (severityNames d) FatalIssuer ;;
  let pm := bare ++ label in
  let pm := match err with Some e => pm ++ e | None => pm end in
  throw (PanicMsg pm).

End DefaultLogger.

End Pkg.

(** ** A sample platform, to run the engine on concrete inputs *)

Module Sample.

(** [filepath.Base] for slash-separated paths, on the reversed bytes. *)
Fixpoint drop_slashes (cs : list ascii) : list ascii :=
  match cs with
  | c :: rest => if Ascii.eqb c "/"%char then drop_slashes rest else cs
  | [] => []
  end.

Fixpoint until_slash (cs : list ascii) : list ascii :=
  match cs with
  | c :: rest => if Ascii.eqb c "/"%char then [] else c :: until_slash rest
  | [] => []
  end.

Definition Base (path : string) : string :=
  match path with
  | EmptyString => "."
  | _ =>
      match drop_slashes (rev (list_ascii_of_string path)) with
      | [] => "/"
      | cs => string_of_list_ascii (rev (until_slash cs))
      end
  end.

Definition Itoa (z : Z) : string :=
  DecimalString.NilZero.string_of_int (Z.to_int z).

Definition operand (v : Value) : string :=
  match v with
  | VCaller d => Itoa d
  | VString s => s
  | VInt n => Itoa n
  | VBool true => "true"
  | VBool false => "false"
  end.

Definition is_string (v : Value) : bool :=
  match v with
  | VString _ => true
  | _ => false
  end.

(** [fmt.Sprint]: operands in their default format, a space between two
    operands when neither is a string. *)
Fixpoint Sprint_from (prev : Value) (vs : list Value) : string :=
  match vs with
  | [] => ""
  | v :: rest =>
      (if is_string prev || is_string v then "" else " ")
      ++ operand v ++ Sprint_from v rest
  end.

Definition Sprint (vs : list Value) : string :=
  match vs with
  | [] => ""
  | v :: rest => operand v ++ Sprint_from v rest
  end.

(** A clock value is the wall-clock reading already rendered; the sample
    platform renders it the same under every layout and zone.
    [Sprintf] is only run on formats without verbs and without arguments,
    where it returns the format.  The destination [PlainWriter 13] rejects
    every write. *)
#[export] Instance platform : Platform := {|
  Time := string;
  time_UTC := fun t => t;
  time_Format := fun t _ => t;
  filepath_Base := Base;
  strconv_Itoa := Itoa;
  fmt_Sprint := Sprint;
  fmt_Sprintf := fun format _ => format;
  writer_Write := fun w _ _ =>
    match w with
    | PlainWriter 13 => Some "short write"
    | _ => None
    end
|}.

Definition env : Ambient :=
  @mkAmbient platform "2024-01-02 03:04:05.000000"
    (fun depth =>
       if (depth =? 2)%Z then Some ("/srv/app/main.go", 42%Z)
       else if (depth =? 3)%Z then Some ("/srv/app/run.go", 7%Z)
       else if (depth =? 101)%Z then Some ("/usr/lib/go/src/runtime/asm.s", 1700%Z)
       else None).

(** No frame resolves. *)
Definition bare_env : Ambient :=
  @mkAmbient platform "2024-01-02 03:04:05.000000" (fun _ => None).

Definition svc (w : Writer) (minLvl : Severity) : Logger :=
  mkLogger ": svc:" (Some w) minLvl "2006-01-02 15:04:05.000000" false
    ["debug:"; "info:"; "warn:"; "error:"; "fatal:"].

End Sample.

(** * Properties *)

(** ** Byte strings *)

Lemma append_assoc (a b c : string) : (a ++ b) ++ c = a ++ (b ++ c).
Proof.
  induction a as [|x a IH]; simpl; [reflexivity | now rewrite IH].
Qed.

Lemma append_nil_r (a : string) : a ++ "" = a.
Proof.
  induction a as [|x a IH]; simpl; [reflexivity | now rewrite IH].
Qed.

Lemma list_ascii_of_string_append (a b : string) :
  list_ascii_of_string (a ++ b)
  = (list_ascii_of_string a ++ list_ascii_of_string b)%list.
Proof.
  induction a as [|x a IH]; simpl; [reflexivity | now rewrite IH].
Qed.

Lemma last_byte_cons (c : ascii) (s : string) :
  last_byte (String c s)
  = match last_byte s with Some d => Some d | None => Some c end.
Proof.
  revert c; induction s as [|d s IH]; intros c; [reflexivity|].
  change (last_byte (String c (String d s))) with (last_byte (String d s)).
  rewrite IH. now destruct (last_byte s).
Qed.

Lemma last_byte_append_cons (a : string) (c : ascii) (s : string) :
  last_byte (a ++ String c s) = last_byte (String c s).
Proof.
  induction a as [|x a IH]; [reflexivity|].
  simpl append. rewrite last_byte_cons, IH.
  rewrite last_byte_cons. now destruct (last_byte s).
Qed.

Lemma get_last (s : string) :
  String.get (String.length s - 1) s = last_byte s.
Proof.
  induction s as [|c s IH]; [reflexivity|].
  destruct s as [|d s]; [reflexivity|].
  change (last_byte (String c (String d s))) with (last_byte (String d s)).
  rewrite <- IH. simpl String.length.
  replace (S (S (String.length s)) - 1) with (S (String.length s)) by lia.
  replace (S (String.length s) - 1) with (String.length s) by lia.
  reflexivity.
Qed.

Lemma byte_is_last (s : string) :
  byte_is s (String.length s - 1) LF = ends_with_newline s.
Proof.
  unfold byte_is, ends_with_newline. now rewrite get_last.
Qed.

Lemma ends_with_newline_append_cons (a : string) (c : ascii) (s : string) :
  Ascii.eqb c LF = false ->
  ends_with_newline (a ++ String c s) = ends_with_newline s.
Proof.
  intros Hc. unfold ends_with_newline.
  rewrite last_byte_append_cons, last_byte_cons.
  destruct (last_byte s); [reflexivity | exact Hc].
Qed.

Lemma length_append_cons (a : string) (c : ascii) (s : string) :
  (String.length (a ++ String c s) =? 0)%nat = false.
Proof. destruct a; reflexivity. Qed.

Lemma ensure_newline_append_cons (a : string) (c : ascii) (s : string) :
  Ascii.eqb c LF = false ->
  ensure_newline (a ++ String c s)
  = a ++ String c s ++ (if ends_with_newline s then "" else NL).
Proof.
  intros Hc. unfold ensure_newline.
  rewrite length_append_cons, byte_is_last, ends_with_newline_append_cons by exact Hc.
  destruct (ends_with_newline s); simpl.
  - now rewrite append_nil_r.
  - change (String c (s ++ NL)) with (String c s ++ NL). now rewrite append_assoc.
Qed.

Lemma leading_newlines_app_stop (x y : list ascii) (c : ascii) :
  Ascii.eqb c LF = false ->
  leading_newlines (x ++ c :: y) = leading_newlines (x ++ [c]).
Proof.
  intros Hc. induction x as [|d x IH]; simpl.
  - now rewrite Hc.
  - destruct (Ascii.eqb d LF); [now rewrite IH | reflexivity].
Qed.

Lemma trailing_newlines_append_cons (a : string) (c : ascii) (s : string) :
  Ascii.eqb c LF = false ->
  trailing_newlines (a ++ String c s) = trailing_newlines (String c s).
Proof.
  intros Hc. unfold trailing_newlines.
  rewrite list_ascii_of_string_append. simpl list_ascii_of_string.
  rewrite rev_app_distr. simpl rev. rewrite <- app_assoc. simpl app.
  now apply leading_newlines_app_stop.
Qed.

Lemma trailing_newlines_snoc (s : string) :
  trailing_newlines (s ++ NL) = S (trailing_newlines s).
Proof.
  unfold trailing_newlines.
  rewrite list_ascii_of_string_append, rev_app_distr. reflexivity.
Qed.

Lemma last_byte_rev (s : string) :
  last_byte s = hd_error (rev (list_ascii_of_string s)).
Proof.
  induction s as [|c s IH]; [reflexivity|].
  rewrite last_byte_cons, IH. simpl.
  destruct (rev (list_ascii_of_string s)); reflexivity.
Qed.

Lemma trailing_newlines_ends (s : string) :
  ends_with_newline s = negb (trailing_newlines s =? 0)%nat.
Proof.
  unfold ends_with_newline, trailing_newlines. rewrite last_byte_rev.
  destruct (rev (list_ascii_of_string s)) as [|c cs]; [reflexivity|].
  simpl. now destruct (Ascii.eqb c LF).
Qed.

Lemma trailing_newlines_cons (c : ascii) (s : string) :
  Ascii.eqb c LF = false ->
  trailing_newlines (String c s) = trailing_newlines s.
Proof.
  intros Hc. unfold trailing_newlines. simpl.
  induction (rev (list_ascii_of_string s)) as [|d x IH]; simpl.
  - now rewrite Hc.
  - destruct (Ascii.eqb d LF); [now rewrite IH | reflexivity].
Qed.

(** ** Traces *)

Lemma written_app (a b : Trace) :
  written (a ++ b)%list = (written a ++ written b)%list.
Proof.
  induction a as [|e a IH]; [reflexivity|].
  destruct e; simpl; now rewrite IH.
Qed.

Lemma written_lock_events (w : Writer) : written (lock_events w) = [].
Proof. now destruct w. Qed.

Lemma written_unlock_events (w : Writer) : written (unlock_events w) = [].
Proof. now destruct w. Qed.

(** ** The write path *)

Section WritePath.

Context `{P : Platform}.

Lemma index_in_bounds (xs : list string) (i : N) :
  List.length xs = 5%nat -> (i < DisableIssuer)%N ->
  exists s, nth_error xs (N.to_nat i) = Some s.
Proof.
  intros Hlen Hi. destruct (nth_error xs (N.to_nat i)) eqn:E; [eauto|].
  apply nth_error_None in E. unfold DisableIssuer in Hi. lia.
Qed.

(** What the builder holds before the write is the [entry]. *)
Lemma builder_entry (env : Ambient) (l : Logger) (label : string) (skip : Z)
    (rest : list Value) :
  let now := if useUTC l then time_UTC (time_Now env) else time_Now env in
  ensure_newline
    ((((time_Format now (timeFormat l) ++ name l ++ label)
       ++ call_site env skip) ++ " ") ++ render rest)
  = entry env l label skip rest.
Proof.
  intros now.
  rewrite (append_assoc _ " " (render rest)).
  change (" " ++ render rest) with (String " " (render rest)).
  rewrite ensure_newline_append_cons by reflexivity.
  unfold entry, call_site. fold now.
  rewrite !append_assoc. reflexivity.
Qed.

Lemma Log_emit_spec (env : Ambient) (l : Logger) (level : Severity) (skip : Z)
    (rest : list Value) (tr : Trace) (w : Writer) (label : string) :
  writer l = Some w ->
  nth_error (severityNames l) (N.to_nat level) = Some label ->
  let line := entry env l label skip rest in
  Log_emit env l level skip rest tr
  = (Ret (writer_Write w line (tr ++ lock_events w)%list),
     (tr ++ lock_events w ++ [EvWrite w line] ++ unlock_events w)%list).
Proof.
  intros Hw Hlabel line. unfold Log_emit, bind, index.
  rewrite Hlabel. unfold ret. rewrite builder_entry. fold line.
  rewrite Hw. destruct w as [r|r|t v]; simpl.
  - now rewrite app_nil_r.
  - unfold emit, defer. simpl. rewrite <- !app_assoc. reflexivity.
  - unfold emit, defer. simpl. rewrite <- !app_assoc. reflexivity.
Qed.

Lemma Log_accepted (env : Ambient) (l : Logger) (level : Severity)
    (msg : list Value) (tr : Trace) (w : Writer) :
  List.length (severityNames l) = 5%nat ->
  writer l = Some w ->
  (minLevel l <= level)%N ->
  (level < DisableIssuer)%N ->
  snd (split_caller msg) <> [] ->
  exists label,
    nth_error (severityNames l) (N.to_nat level) = Some label /\
    let line := entry env l label (fst (split_caller msg)) (snd (split_caller msg)) in
    Log env l level msg tr
    = (Ret (writer_Write w line (tr ++ lock_events w)%list),
       (tr ++ lock_events w ++ [EvWrite w line] ++ unlock_events w)%list).
Proof.
  intros Hlen Hw Hmin Hmax Hrest.
  destruct (index_in_bounds _ _ Hlen Hmax) as [label Hlabel].
  exists label. split; [exact Hlabel|].
  unfold Log.
  replace (level <? minLevel l)%N with false by (symmetry; now apply N.ltb_ge).
  replace (DisableIssuer <=? level)%N with false by (symmetry; now apply N.leb_gt).
  destruct msg as [|v rest]; [now elim Hrest|]. simpl orb.
  destruct v as [d|s|n|b]; simpl split_caller in *; simpl fst; simpl snd;
    try (now apply Log_emit_spec).
  destruct rest as [|v' rest']; [now elim Hrest|].
  simpl Nat.eqb. now apply Log_emit_spec.
Qed.

Lemma written_after_entry (tr : Trace) (w : Writer) (line : string) :
  written (tr ++ lock_events w ++ [EvWrite w line] ++ unlock_events w)%list
  = (written tr ++ [line])%list.
Proof.
  rewrite !written_app, written_lock_events, written_unlock_events. reflexivity.
Qed.

(** C3: a call of [Log] whose level is below the configured minimum, or is
    the [DisableIssuer] sentinel or above, or whose message sequence is
    empty, returns nil and leaves the trace as it was: nothing is locked,
    written or unlocked. *)
Theorem Log_short_circuit (env : Ambient) (l : Logger) (level : Severity)
    (msg : list Value) (tr : Trace) :
  (level < minLevel l)%N \/ (DisableIssuer <= level)%N \/ msg = [] ->
  Log env l level msg tr = (Ret None, tr).
Proof.
  intros H. unfold Log.
  destruct H as [H | [H | H]].
  - apply N.ltb_lt in H. now rewrite H.
  - apply N.leb_le in H. rewrite H. now rewrite orb_true_r.
  - subst msg. simpl. now rewrite !orb_true_r.
Qed.

(** C1, as amended: for an accepted call of [Log] (the level is at least
    the minimum and below [DisableIssuer], and components remain once a
    leading caller-depth marker is taken off) on a logger with five labels
    and a destination, exactly one line is handed to the destination, made
    of, in order: the formatted timestamp, the name with its delimiters, the
    label of the level, then, only when the call site resolved, a space and
    [<basefile>:<line>:], then one space, then the rendered message, then a
    line terminator unless the rendered message already ends with one. *)
Theorem Log_line_format (env : Ambient) (l : Logger) (level : Severity)
    (msg : list Value) (tr : Trace) (w : Writer) :
  List.length (severityNames l) = 5%nat ->
  writer l = Some w ->
  (minLevel l <= level)%N ->
  (level < DisableIssuer)%N ->
  snd (split_caller msg) <> [] ->
  exists label,
    nth_error (severityNames l) (N.to_nat level) = Some label /\
    let now := if useUTC l then time_UTC (time_Now env) else time_Now env in
    let skip := fst (split_caller msg) in
    let body := render (snd (split_caller msg)) in
    let site :=
      match runtime_Caller env (skip + 2)%Z with
      | Some (file, ln) =>
          " " ++ filepath_Base file ++ ":" ++ strconv_Itoa ln ++ ":"
      | None => ""
      end in
    let line :=
      time_Format now (timeFormat l) ++ name l ++ label ++ site ++ " "
      ++ body ++ (if ends_with_newline body then "" else NL) in
    written (snd (Log env l level msg tr)) = (written tr ++ [line])%list.
Proof.
  intros Hlen Hw Hmin Hmax Hrest.
  destruct (Log_accepted env l level msg tr w Hlen Hw Hmin Hmax Hrest)
    as [label [Hlabel HLog]].
  exists label. split; [exact Hlabel|].
  cbv zeta in HLog |- *. rewrite HLog. cbn [snd].
  rewrite written_after_entry. reflexivity.
Qed.

(** C2, as amended: for an accepted call of [Log], the line handed to the
    destination ends with a line terminator; one is appended when the
    rendered message does not end with one and none is added when it does,
    so that the line ends with as many terminators as the message, and
    with one when the message ends with none. *)
Theorem Log_line_terminator (env : Ambient) (l : Logger) (level : Severity)
    (msg : list Value) (tr : Trace) (w : Writer) :
  List.length (severityNames l) = 5%nat ->
  writer l = Some w ->
  (minLevel l <= level)%N ->
  (level < DisableIssuer)%N ->
  snd (split_caller msg) <> [] ->
  exists front line,
    let body := render (snd (split_caller msg)) in
    written (snd (Log env l level msg tr)) = (written tr ++ [line])%list /\
    line = front ++ " " ++ body ++ (if ends_with_newline body then "" else NL) /\
    ends_with_newline line = true /\
    trailing_newlines line = Nat.max 1 (trailing_newlines body).
Proof.
  intros Hlen Hw Hmin Hmax Hrest.
  destruct (Log_accepted env l level msg tr w Hlen Hw Hmin Hmax Hrest)
    as [label [_ HLog]].
  cbv zeta in HLog.
  set (rest := snd (split_caller msg)) in *.
  set (skip := fst (split_caller msg)) in *.
  set (now := if useUTC l then time_UTC (time_Now env) else time_Now env).
  exists (time_Format now (timeFormat l) ++ name l ++ label
          ++ match runtime_Caller env (skip + 2)%Z with
             | Some (file, ln) =>
                 " " ++ filepath_Base file ++ ":" ++ strconv_Itoa ln ++ ":"
             | None => ""
             end).
  exists (entry env l label skip rest).
  cbv zeta. rewrite HLog. cbn [snd]. rewrite written_after_entry.
  assert (Hline :
    entry env l label skip rest
    = (time_Format now (timeFormat l) ++ name l ++ label
       ++ match runtime_Caller env (skip + 2)%Z with
          | Some (file, ln) =>
              " " ++ filepath_Base file ++ ":" ++ strconv_Itoa ln ++ ":"
          | None => ""
          end)
      ++ " " ++ render rest
      ++ (if ends_with_newline (render rest) then "" else NL)).
  { unfold entry. fold now. rewrite !append_assoc. reflexivity. }
  split; [reflexivity|]. split; [exact Hline|].
  assert (Htrail :
    trailing_newlines (entry env l label skip rest)
    = Nat.max 1 (trailing_newlines (render rest))).
  { rewrite Hline.
    change (" " ++ render rest
            ++ (if ends_with_newline (render rest) then "" else NL))
      with (String " " (render rest
            ++ (if ends_with_newline (render rest) then "" else NL))).
    rewrite trailing_newlines_append_cons, trailing_newlines_cons by reflexivity.
    pose proof (trailing_newlines_ends (render rest)) as Hends.
    destruct (ends_with_newline (render rest)).
    - rewrite append_nil_r.
      destruct (trailing_newlines (render rest)); [discriminate | reflexivity].
    - rewrite trailing_newlines_snoc.
      destruct (trailing_newlines (render rest)); [reflexivity | discriminate]. }
  split; [|exact Htrail].
  rewrite trailing_newlines_ends, Htrail.
  now destruct (trailing_newlines (render rest)).
Qed.

(** C4: a leading caller-depth marker is taken off the message before the
    line is assembled, and the depth used is the marker clamped into
    [0, 99]: negative values give 0 and values above 99 give 99.  A call
    that holds the marker alone returns nil and writes nothing, whatever the
    level; an accepted call with components after the marker resolves the
    call site at the clamped depth and renders the components after it. *)
Theorem Log_caller_marker (env : Ambient) (l : Logger) (level : Severity)
    (depth : Z) (rest : list Value) (tr : Trace) :
  (0 <= clamp_skip depth <= 99)%Z /\
  ((depth < 0)%Z -> clamp_skip depth = 0%Z) /\
  ((99 < depth)%Z -> clamp_skip depth = 99%Z) /\
  ((0 <= depth <= 99)%Z -> clamp_skip depth = depth) /\
  Log env l level [VCaller depth] tr = (Ret None, tr) /\
  (forall w,
     List.length (severityNames l) = 5%nat ->
     writer l = Some w ->
     (minLevel l <= level)%N ->
     (level < DisableIssuer)%N ->
     rest <> [] ->
     exists label,
       nth_error (severityNames l) (N.to_nat level) = Some label /\
       let line := entry env l label (clamp_skip depth) rest in
       Log env l level (VCaller depth :: rest) tr
       = (Ret (writer_Write w line (tr ++ lock_events w)%list),
          (tr ++ lock_events w ++ [EvWrite w line] ++ unlock_events w)%list)).
Proof.
  assert (Hclamp : forall d, (0 <= clamp_skip d <= 99)%Z).
  { intros d. unfold clamp_skip.
    destruct (Z.ltb_spec d 0); [lia|]. destruct (Z.ltb_spec 99 d); lia. }
  repeat split; try apply Hclamp.
  - intros H. unfold clamp_skip. destruct (Z.ltb_spec depth 0); [reflexivity | lia].
  - intros H. unfold clamp_skip.
    destruct (Z.ltb_spec depth 0); [lia|]. destruct (Z.ltb_spec 99 depth); [reflexivity | lia].
  - intros H. unfold clamp_skip.
    destruct (Z.ltb_spec depth 0); [lia|]. destruct (Z.ltb_spec 99 depth); [lia | reflexivity].
  - unfold Log. simpl.
    now destruct ((level <? minLevel l)%N || (DisableIssuer <=? level)%N || false).
  - intros w Hlen Hw Hmin Hmax Hrest.
    exact (Log_accepted env l level (VCaller depth :: rest) tr w Hlen Hw Hmin Hmax Hrest).
Qed.

End WritePath.

(** ** Configuration: construction, accessors, mutators *)

Lemma apply_Option_keeps (opt : Option) (l : Logger) :
  name (apply_Option opt l) = name l /\
  writer (apply_Option opt l) = writer l /\
  minLevel (apply_Option opt l) = minLevel l /\
  (List.length (severityNames l) = 5%nat ->
   List.length (severityNames (apply_Option opt l)) = 5%nat).
Proof.
  destruct opt as [format|utc|names]; simpl; try tauto.
  destruct (Nat.eqb_spec (List.length names) 5); simpl; tauto.
Qed.

Lemma apply_Options_keep (opts : list Option) (l : Logger) :
  let l' := fold_left (fun l opt => apply_Option opt l) opts l in
  name l' = name l /\
  writer l' = writer l /\
  minLevel l' = minLevel l /\
  (List.length (severityNames l) = 5%nat ->
   List.length (severityNames l') = 5%nat).
Proof.
  revert l. induction opts as [|opt opts IH]; intros l; simpl; [tauto|].
  destruct (IH (apply_Option opt l)) as [Hn [Hw [Hm Hs]]].
  destruct (apply_Option_keeps opt l) as [Hn' [Hw' [Hm' Hs']]].
  rewrite Hn, Hw, Hm. repeat split; auto.
Qed.

Lemma New_inv (n : string) (w : option Writer) (minLvl : Severity)
    (opts : list Option) (l : Logger) :
  New n w minLvl opts = Ret l ->
  invalid_name n = false /\ w <> None /\ (minLvl <= DisableIssuer)%N /\
  name l = n /\ writer l = w /\ minLevel l = minLvl /\
  List.length (severityNames l) = 5%nat.
Proof.
  unfold New. destruct (invalid_name n); [discriminate|].
  destruct w as [d|]; simpl; [|discriminate].
  destruct (N.ltb_spec DisableIssuer minLvl) as [Hgt|Hle]; [discriminate|].
  intros HNew. injection HNew as <-.
  match goal with
  | |- context [fold_left ?f opts ?l0] =>
      destruct (apply_Options_keep opts l0) as [Hn [Hw [Hm Hs]]]
  end.
  cbv zeta in *. rewrite Hn, Hw, Hm. simpl.
  repeat split; try reflexivity; try assumption; try discriminate.
  now apply Hs.
Qed.



Lemma UpdateWriter_result (l : Logger) (w : option Writer) (tr : Trace) :
  (exists (ok : bool) (tr' : Trace),
     UpdateWriter l w tr = (Ret (ok, if ok then set_writer l w else l), tr') /\
     (ok = true -> w <> None) /\ written tr' = written tr) \/
  UpdateWriter l w tr = (Panicked PanicUncomparable, tr).
Proof.
  destruct w as [[r|r|t v]|]; destruct (writer l) as [[c|c|s u]|] eqn:Ew;
    unfold UpdateWriter; try rewrite Ew;
    unfold bind, lift, ret, defer, emit; simpl;
    repeat match goal with
           | |- context [Nat.eqb ?a ?b] => destruct (Nat.eqb a b)
           end; simpl;
    first
      [ right; reflexivity
      | left; exists true; eexists; split; [reflexivity|];
        split; [easy | rewrite ?written_app; simpl; rewrite ?app_nil_r;
                       reflexivity]
      | left; exists false; eexists; split; [reflexivity|];
        split; [easy | rewrite ?written_app; simpl; rewrite ?app_nil_r;
                       reflexivity] ].
Qed.



(** C5: the claim breaks on the code at one kind of input.  When the
    current destination and the new one both have the lock capability and
    hold values of one dynamic type that is not comparable, the test
    [currentLocker != newLocker] of [UpdateWriter] is a run-time panic:
    nothing is returned, where the claim (and the comment of the function)
    has failure reported for two distinct instances and success for one and
    the same.  The logger and the trace are as before. *)
Theorem UpdateWriter_uncomparable_panics (l : Logger) (dyn cur new : nat)
    (tr : Trace) :
  writer l = Some (UncomparableLocker dyn cur) ->
  UpdateWriter l (Some (UncomparableLocker dyn new)) tr
  = (Panicked PanicUncomparable, tr).
Proof.
  intros Hw. unfold UpdateWriter. rewrite Hw.
  unfold bind, lift. simpl. now rewrite Nat.eqb_refl.
Qed.

(** C7: the option [WithSeverityNames] replaces the labels exactly when it
    is given five of them; with any other number the logger is left as it
    was, and construction with the option goes through all the same. *)
Theorem WithSeverityNames_five (names : list string) (l : Logger) :
  (List.length names = 5%nat ->
   apply_Option (WithSeverityNames names) l = set_severityNames l names /\
   severityNames (apply_Option (WithSeverityNames names) l) = names) /\
  (List.length names <> 5%nat ->
   apply_Option (WithSeverityNames names) l = l) /\
  (forall n w minLvl,
     invalid_name n = false -> w <> None -> (minLvl <= DisableIssuer)%N ->
     exists l',
       New n w minLvl [WithSeverityNames names] = Ret l' /\
       severityNames l'
       = if Nat.eqb (List.length names) 5 then names
         else ["debug:"; "info:"; "warn:"; "error:"; "fatal:"]).
Proof.
  split; [|split].
  - intros H. simpl. rewrite H. simpl. split; reflexivity.
  - intros H. simpl. now destruct (Nat.eqb_spec (List.length names) 5).
  - intros n w minLvl Hn Hw Hm. unfold New. rewrite Hn.
    destruct w as [d|]; [|now elim Hw]. simpl.
    replace (DisableIssuer <? minLvl)%N with false
      by (symmetry; now apply N.ltb_ge).
    eexists. split; [reflexivity|].
    now destruct (Nat.eqb (List.length names) 5).
Qed.

(** C8: the minimum level of a logger is at most [DisableIssuer] after
    construction and stays so: [New] panics when given a level above
    [DisableIssuer] and otherwise stores the level it is given; [SetLevel]
    stores its argument when it is at most [DisableIssuer] and otherwise
    leaves the logger as it was, so that [GetLevel] reports the level of
    before; no run of [SetLevel] and [UpdateWriter] calls breaks the
    bound. *)
Theorem minLevel_bounded :
  (forall n w minLvl opts l,
     New n w minLvl opts = Ret l ->
     minLevel l = minLvl /\ (minLevel l <= DisableIssuer)%N) /\
  (forall n w minLvl opts,
     (DisableIssuer < minLvl)%N -> exists p, New n w minLvl opts = Panicked p) /\
  (forall l level,
     (level <= DisableIssuer)%N -> GetLevel (SetLevel l level) = level) /\
  (forall l level,
     (DisableIssuer < level)%N ->
     SetLevel l level = l /\ GetLevel (SetLevel l level) = GetLevel l) /\
  (forall l tr ops,
     (minLevel l <= DisableIssuer)%N ->
     (minLevel (fst (run_ops l tr ops)) <= DisableIssuer)%N).
Proof.
  repeat split.
  - apply New_inv in H. tauto.
  - apply New_inv in H. destruct H as [_ [_ [Hm [_ [_ [Em _]]]]]]. now rewrite Em.
  - intros n w minLvl opts Hgt. unfold New.
    destruct (invalid_name n); [eauto|].
    apply N.ltb_lt in Hgt. rewrite Hgt, orb_true_r. eauto.
  - intros l level Hle. unfold GetLevel, SetLevel.
    apply N.leb_le in Hle. now rewrite Hle.
  - unfold SetLevel. apply N.leb_gt in H. now rewrite H.
  - unfold SetLevel. apply N.leb_gt in H. now rewrite H.
  - intros l tr ops. unfold run_ops. revert l tr.
    induction ops as [|op ops IH]; intros l tr Hle; [exact Hle|].
    cbn [fold_left]. destruct (run_op (l, tr) op) as [l' tr'] eqn:E.
    apply IH. destruct op as [level|w]; simpl in E.
    + injection E as <- <-. unfold SetLevel.
      destruct (N.leb_spec level DisableIssuer); simpl; assumption.
    + destruct (UpdateWriter_result l w tr) as [[ok [tr'' [EU _]]] | EU];
        rewrite EU in E; injection E as <- <-; [now destruct ok | exact Hle].
Qed.

(** ** The name *)

Lemma init_last (s : string) (c : ascii) :
  last_byte s = Some c ->
  s = substring 0 (String.length s - 1) s ++ String c "".
Proof.
  induction s as [|a s IH]; [discriminate|].
  destruct s as [|b s'].
  - simpl. intros H. now injection H as ->.
  - change (last_byte (String a (String b s'))) with (last_byte (String b s')).
    intros H. specialize (IH H).
    replace (String.length (String a (String b s')) - 1)
      with (S (String.length (String b s') - 1)) by (simpl; lia).
    set (k := String.length (String b s') - 1) in *.
    change (String a (String b s')
            = String a (substring 0 k (String b s') ++ String c "")).
    f_equal. exact IH.
Qed.

Lemma valid_name_shape (n : string) :
  invalid_name n = false ->
  (3 <= String.length n)%nat /\
  n = ": " ++ substring 2 (String.length n - 1 - 2) n ++ ":".
Proof.
  unfold invalid_name. intros H.
  apply orb_false_iff in H as [H Hlast].
  apply orb_false_iff in H as [H Hsp].
  apply orb_false_iff in H as [Hlen Hcol].
  apply Nat.ltb_ge in Hlen. split; [exact Hlen|].
  apply negb_false_iff in Hlast, Hsp, Hcol.
  unfold byte_is in *. rewrite get_last in Hlast.
  destruct n as [|a [|b rest]]; try discriminate.
  simpl in Hcol, Hsp. apply Ascii.eqb_eq in Hcol, Hsp. subst a b.
  destruct rest as [|c rest]; [simpl in Hlen; lia|].
  change (last_byte (String ":" (String " " (String c rest))))
    with (last_byte (String c rest)) in Hlast.
  destruct (last_byte (String c rest)) as [d|] eqn:El; [|discriminate].
  apply Ascii.eqb_eq in Hlast. subst d.
  apply init_last in El.
  replace (String.length (String ":" (String " " (String c rest))) - 1 - 2)
    with (String.length (String c rest) - 1) by (simpl; lia).
  set (k := String.length (String c rest) - 1) in *.
  change (String ":" (String " " (String c rest))
          = String ":" (String " " (substring 0 k (String c rest) ++ ":"))).
  do 2 f_equal. exact El.
Qed.


(** ** Fatal, and the label lookup *)

Section Termination.

Context `{P : Platform}.

Lemma Log_filtered (env : Ambient) (l : Logger) (level : Severity)
    (msg : list Value) (tr : Trace) :
  ((level <? minLevel l)%N || (DisableIssuer <=? level)%N
   || (List.length msg =? 0)%nat) = true ->
  Log env l level msg tr = (Ret None, tr).
Proof. intros H. unfold Log. now rewrite H. Qed.

Lemma Log_marker_alone (env : Ambient) (l : Logger) (level : Severity)
    (depth : Z) (tr : Trace) :
  Log env l level [VCaller depth] tr = (Ret None, tr).
Proof.
  unfold Log. simpl.
  now destruct ((level <? minLevel l)%N || (DisableIssuer <=? level)%N || false).
Qed.

(** On a logger with five labels and a destination, [Log] returns. *)
Lemma Log_returns (env : Ambient) (l : Logger) (level : Severity)
    (msg : list Value) (tr : Trace) :
  List.length (severityNames l) = 5%nat ->
  writer l <> None ->
  exists err tr', Log env l level msg tr = (Ret err, tr').
Proof.
  intros Hlen Hw.
  destruct (writer l) as [w|] eqn:Ew; [|now elim Hw].
  destruct ((level <? minLevel l)%N || (DisableIssuer <=? level)%N
            || (List.length msg =? 0)%nat) eqn:Hguard.
  - exists None, tr. now apply Log_filtered.
  - apply orb_false_iff in Hguard as [Hguard _].
    apply orb_false_iff in Hguard as [Hmin Hmax].
    apply N.ltb_ge in Hmin. apply N.leb_gt in Hmax.
    destruct (snd (split_caller msg)) as [|v rest] eqn:Erest.
    + destruct msg as [|[d|s|k|b] [|v' rest']]; try discriminate.
      * exists None, tr. apply Log_filtered. now rewrite !orb_true_r.
      * exists None, tr. apply Log_marker_alone.
    + assert (Hrest : snd (split_caller msg) <> []) by (rewrite Erest; discriminate).
      destruct (Log_accepted env l level msg tr w Hlen Ew Hmin Hmax Hrest)
        as [label [_ HLog]].
      rewrite HLog. eauto.
Qed.

Lemma Name_returns (l : Logger) :
  invalid_name (name l) = false ->
  Name l = Ret (substring 2 (String.length (name l) - 1 - 2) (name l)).
Proof.
  intros H. destruct (valid_name_shape _ H) as [Hlen _]. unfold Name.
  replace (String.length (name l) <? 3)%nat with false
    by (symmetry; now apply Nat.ltb_ge).
  reflexivity.
Qed.

Lemma panic_after_Log (l : Logger) (bare label : string)
    (m : Go (option string)) (err : option string) (tr tr' : Trace) :
  Name l = Ret bare ->
  nth_error (severityNames l) (N.to_nat FatalIssuer) = Some label ->
  m tr = (Ret err, tr') ->
  (err <- m ;;
   bare <- lift (Name l) ;;
   label <- index (severityNames l) FatalIssuer ;;
   let pm := bare ++ label in
   let pm := match err with Some e => pm ++ e | None => pm end in
   @throw (option string) (PanicMsg pm)) tr
  = (Panicked (PanicMsg (match err with
                         | Some e => (bare ++ label) ++ e
                         | None => bare ++ label
                         end)), tr').
Proof.
  intros HName Hlabel Hm. unfold bind, lift, index.
  rewrite Hm, HName, Hlabel. reflexivity.
Qed.

(** C6: on a well-formed logger, [Fatal] and [Fatalf] always end in a
    panic: [Log] is run at the level [FatalIssuer] and returns, and then
    the panic is raised, with the bare name followed by the label of
    [FatalIssuer] as its message, and the text of the write error after it
    only when [Log] returned one.  When the minimum level is above
    [FatalIssuer], nothing is written and the panic is raised all the
    same. *)
Theorem Fatal_always_panics (env : Ambient) (l : Logger) (msg : list Value)
    (format : string) (args : list Value) (tr : Trace) :
  well_formed l ->
  exists bare label,
    Name l = Ret bare /\
    nth_error (severityNames l) (N.to_nat FatalIssuer) = Some label /\
    (exists err tr',
       Log env l FatalIssuer msg tr = (Ret err, tr') /\
       Fatal env l msg tr
       = (Panicked (PanicMsg (match err with
                              | Some e => (bare ++ label) ++ e
                              | None => bare ++ label
                              end)), tr')) /\
    (exists err tr',
       Log env l FatalIssuer [VString (fmt_Sprintf format args)] tr
       = (Ret err, tr') /\
       Fatalf env l format args tr
       = (Panicked (PanicMsg (match err with
                              | Some e => (bare ++ label) ++ e
                              | None => bare ++ label
                              end)), tr')) /\
    ((FatalIssuer < minLevel l)%N ->
     Fatal env l msg tr = (Panicked (PanicMsg (bare ++ label)), tr) /\
     Fatalf env l format args tr = (Panicked (PanicMsg (bare ++ label)), tr)).
Proof.
  intros [Hn Hw Hm Hs].
  destruct (index_in_bounds (severityNames l) FatalIssuer Hs) as [label Hlabel];
    [reflexivity|].
  pose proof (Name_returns l Hn) as HName.
  eexists. exists label. split; [exact HName|]. split; [exact Hlabel|].
  split; [|split].
  - destruct (Log_returns env l FatalIssuer msg tr Hs Hw) as [err [tr' HLog]].
    exists err, tr'. split; [exact HLog|].
    unfold Fatal. now apply panic_after_Log.
  - destruct (Log_returns env l FatalIssuer
                [VString (fmt_Sprintf format args)] tr Hs Hw) as [err [tr' HLog]].
    exists err, tr'. split; [exact HLog|].
    unfold Fatalf. now apply panic_after_Log.
  - intros Hlt. apply N.ltb_lt in Hlt. split.
    + unfold Fatal.
      apply (panic_after_Log l _ label _ None tr tr HName Hlabel).
      apply Log_filtered. now rewrite Hlt.
    + unfold Fatalf.
      apply (panic_after_Log l _ label _ None tr tr HName Hlabel).
      apply Log_filtered. now rewrite Hlt.
Qed.


End Termination.

(** * The engine on the sample platform *)

Lemma Log_short_circuit_witness :
  ((DebugIssuer < minLevel (Sample.svc (PlainWriter 1) InfoIssuer))%N
   \/ (DisableIssuer <= DebugIssuer)%N
   \/ [VString "dropped"] = []) /\
  Log Sample.env (Sample.svc (PlainWriter 1) InfoIssuer) DebugIssuer
    [VString "dropped"] [] = (Ret None, []).
Proof.
  assert (H : (DebugIssuer < minLevel (Sample.svc (PlainWriter 1) InfoIssuer))%N
              \/ (DisableIssuer <= DebugIssuer)%N
              \/ [VString "dropped"] = []) by (left; reflexivity).
  split; [exact H|].
  exact (@Log_short_circuit Sample.platform Sample.env
           (Sample.svc (PlainWriter 1) InfoIssuer) DebugIssuer
           [VString "dropped"] [] H).
Defined.

Lemma Log_line_format_witness :
  written (snd (Log Sample.env (Sample.svc (LockWriter 1) DebugIssuer)
                  InfoIssuer [VString "ready"] []))
  = ["2024-01-02 03:04:05.000000: svc:info: main.go:42: ready" ++ NL].
Proof.
  destruct (@Log_line_format Sample.platform Sample.env
              (Sample.svc (LockWriter 1) DebugIssuer) InfoIssuer
              [VString "ready"] [] (LockWriter 1))
    as [label [Hlabel Hline]].
  - reflexivity.
  - reflexivity.
  - vm_compute. discriminate.
  - reflexivity.
  - simpl. discriminate.
  - vm_compute in Hlabel. injection Hlabel as <-. exact Hline.
Defined.

(** The message ["ready\n"]: the line holds the message and no further
    terminator, where the format with a terminator after the message would
    end in two. *)
Lemma Log_line_format_counterexample :
  ~ (forall (P : Platform) (env : @Ambient P) (l : Logger) (level : Severity)
            (msg : list Value) (tr : Trace) (w : Writer),
       List.length (severityNames l) = 5%nat ->
       writer l = Some w ->
       (minLevel l <= level)%N ->
       (level < DisableIssuer)%N ->
       snd (split_caller msg) <> [] ->
       exists label,
         nth_error (severityNames l) (N.to_nat level) = Some label /\
         let now := if useUTC l then time_UTC (time_Now env) else time_Now env in
         let skip := fst (split_caller msg) in
         let body := render (snd (split_caller msg)) in
         let site :=
           match runtime_Caller env (skip + 2)%Z with
           | Some (file, ln) =>
               " " ++ filepath_Base file ++ ":" ++ strconv_Itoa ln ++ ":"
           | None => ""
           end in
         let line :=
           time_Format now (timeFormat l) ++ name l ++ label ++ site ++ " "
           ++ body ++ NL in
         written (snd (Log env l level msg tr)) = (written tr ++ [line])%list).
Proof.
  intros H.
  destruct (H Sample.platform Sample.env
              (Sample.svc (PlainWriter 1) DebugIssuer) InfoIssuer
              [VString ("ready" ++ NL)] [] (PlainWriter 1))
    as [label [Hlabel Hline]].
  - reflexivity.
  - reflexivity.
  - vm_compute. discriminate.
  - reflexivity.
  - simpl. discriminate.
  - vm_compute in Hlabel. injection Hlabel as <-.
    vm_compute in Hline. discriminate Hline.
Qed.

Lemma Log_line_terminator_witness :
  exists front line,
    written (snd (Log Sample.bare_env (Sample.svc (PlainWriter 1) DebugIssuer)
                    WarnIssuer [VString ("disk low" ++ NL ++ NL)] []))
    = [line] /\
    line = front ++ " " ++ ("disk low" ++ NL ++ NL) /\
    ends_with_newline line = true /\
    trailing_newlines line = 2%nat.
Proof.
  destruct (@Log_line_terminator Sample.platform Sample.bare_env
              (Sample.svc (PlainWriter 1) DebugIssuer) WarnIssuer
              [VString ("disk low" ++ NL ++ NL)] [] (PlainWriter 1))
    as [front [line [Hw [Hl [He Ht]]]]].
  - reflexivity.
  - reflexivity.
  - vm_compute. discriminate.
  - reflexivity.
  - simpl. discriminate.
  - exists front, line. repeat split; assumption.
Defined.

(** The message ["disk low\n\n"]: the line ends with two terminators. *)
Lemma Log_line_terminator_counterexample :
  ~ (forall (P : Platform) (env : @Ambient P) (l : Logger) (level : Severity)
            (msg : list Value) (tr : Trace) (w : Writer) (line : string),
       List.length (severityNames l) = 5%nat ->
       writer l = Some w ->
       (minLevel l <= level)%N ->
       (level < DisableIssuer)%N ->
       snd (split_caller msg) <> [] ->
       written (snd (Log env l level msg tr)) = (written tr ++ [line])%list ->
       trailing_newlines line = 1%nat).
Proof.
  intros H.
  specialize (H Sample.platform Sample.bare_env
                (Sample.svc (PlainWriter 1) DebugIssuer) WarnIssuer
                [VString ("disk low" ++ NL ++ NL)] [] (PlainWriter 1)
                ("2024-01-02 03:04:05.000000: svc:warn: disk low" ++ NL ++ NL)).
  assert (Hfalse : 2%nat = 1%nat); [|discriminate Hfalse].
  apply H.
  - reflexivity.
  - reflexivity.
  - vm_compute. discriminate.
  - reflexivity.
  - simpl. discriminate.
  - reflexivity.
Qed.

Lemma Log_caller_marker_witness :
  clamp_skip 1000 = 99%Z /\
  clamp_skip (-5) = 0%Z /\
  Log Sample.env (Sample.svc (PlainWriter 1) DebugIssuer) ErrorIssuer
    [VCaller 1] [] = (Ret None, []) /\
  written (snd (Log Sample.env (Sample.svc (PlainWriter 1) DebugIssuer)
                  ErrorIssuer [VCaller 1000; VString "deep"] []))
  = ["2024-01-02 03:04:05.000000: svc:error: asm.s:1700: deep" ++ NL] /\
  written (snd (Log Sample.env (Sample.svc (PlainWriter 1) DebugIssuer)
                  ErrorIssuer [VCaller (-5); VString "here"] []))
  = ["2024-01-02 03:04:05.000000: svc:error: main.go:42: here" ++ NL].
Proof.
  pose proof (@Log_caller_marker Sample.platform Sample.env
                (Sample.svc (PlainWriter 1) DebugIssuer) ErrorIssuer
                1000%Z [VString "deep"] []) as [_ [_ [Hhigh [_ [_ Hdeep]]]]].
  pose proof (@Log_caller_marker Sample.platform Sample.env
                (Sample.svc (PlainWriter 1) DebugIssuer) ErrorIssuer
                (-5)%Z [VString "here"] []) as [_ [Hlow [_ [_ [_ Hhere]]]]].
  pose proof (@Log_caller_marker Sample.platform Sample.env
                (Sample.svc (PlainWriter 1) DebugIssuer) ErrorIssuer
                1%Z [] []) as [_ [_ [_ [_ [Halone _]]]]].
  split; [apply Hhigh; lia|]. split; [apply Hlow; lia|]. split; [exact Halone|].
  split.
  - destruct (Hdeep (PlainWriter 1)) as [label [Hlabel HLog]];
      [reflexivity | reflexivity | vm_compute; discriminate | reflexivity
      | discriminate |].
    vm_compute in Hlabel. injection Hlabel as <-.
    cbv zeta in HLog. rewrite HLog. reflexivity.
  - destruct (Hhere (PlainWriter 1)) as [label [Hlabel HLog]];
      [reflexivity | reflexivity | vm_compute; discriminate | reflexivity
      | discriminate |].
    vm_compute in Hlabel. injection Hlabel as <-.
    cbv zeta in HLog. rewrite HLog. reflexivity.
Defined.

Lemma UpdateWriter_uncomparable_panics_witness :
  writer (mkLogger ": svc:" (Some (UncomparableLocker 0 1)) DebugIssuer
            "2006-01-02 15:04:05.000000" false
            ["debug:"; "info:"; "warn:"; "error:"; "fatal:"])
  = Some (UncomparableLocker 0 1) /\
  UpdateWriter
    (mkLogger ": svc:" (Some (UncomparableLocker 0 1)) DebugIssuer
       "2006-01-02 15:04:05.000000" false
       ["debug:"; "info:"; "warn:"; "error:"; "fatal:"])
    (Some (UncomparableLocker 0 2)) []
  = (Panicked PanicUncomparable, []).
Proof.
  split; [reflexivity|].
  apply (UpdateWriter_uncomparable_panics _ 0 1 2 []). reflexivity.
Defined.

Lemma sample_well_formed (w : Writer) (minLvl : Severity) :
  (minLvl <= DisableIssuer)%N -> well_formed (Sample.svc w minLvl).
Proof.
  intros H. constructor; [reflexivity | discriminate | exact H | reflexivity].
Qed.

Lemma Fatal_always_panics_witness :
  well_formed (Sample.svc (PlainWriter 13) DebugIssuer) /\
  Fatal Sample.env (Sample.svc (PlainWriter 13) DebugIssuer)
    [VString "out of space"] []
  = (Panicked (PanicMsg "svcfatal:short write"),
     [EvWrite (PlainWriter 13)
        ("2024-01-02 03:04:05.000000: svc:fatal: main.go:42: out of space" ++ NL)]).
Proof.
  assert (Hwf : well_formed (Sample.svc (PlainWriter 13) DebugIssuer))
    by (apply sample_well_formed; vm_compute; discriminate).
  split; [exact Hwf|].
  destruct (@Fatal_always_panics Sample.platform Sample.env
              (Sample.svc (PlainWriter 13) DebugIssuer)
              [VString "out of space"] "" [] [] Hwf)
    as [bare [label [HName [Hlabel [[err [tr' [HLog HFatal]]] _]]]]].
  vm_compute in HName. injection HName as <-.
  vm_compute in Hlabel. injection Hlabel as <-.
  vm_compute in HLog. injection HLog as <- <-.
  exact HFatal.
Defined.

Lemma WithSeverityNames_five_witness :
  severityNames
    (apply_Option (WithSeverityNames ["DBG"; "INF"; "WRN"; "ERR"; "FTL"])
       (Sample.svc (PlainWriter 1) DebugIssuer))
  = ["DBG"; "INF"; "WRN"; "ERR"; "FTL"] /\
  apply_Option (WithSeverityNames ["DBG"; "INF"])
    (Sample.svc (PlainWriter 1) DebugIssuer)
  = Sample.svc (PlainWriter 1) DebugIssuer /\
  exists l',
    New ": svc:" (Some (PlainWriter 1)) DebugIssuer
      [WithSeverityNames ["DBG"; "INF"]] = Ret l' /\
    severityNames l' = ["debug:"; "info:"; "warn:"; "error:"; "fatal:"].
Proof.
  set (l := Sample.svc (PlainWriter 1) DebugIssuer).
  pose proof (WithSeverityNames_five ["DBG"; "INF"; "WRN"; "ERR"; "FTL"] l)
    as [Hfive _].
  pose proof (WithSeverityNames_five ["DBG"; "INF"] l) as [_ [Hother HNew]].
  split; [apply Hfive; reflexivity|].
  split; [apply Hother; discriminate|].
  apply (HNew ": svc:" (Some (PlainWriter 1)) DebugIssuer);
    [reflexivity | discriminate | vm_compute; discriminate].
Defined.

Lemma minLevel_bounded_witness :
  (exists p, New ": svc:" (Some (PlainWriter 1)) 6%N [] = Panicked p) /\
  GetLevel (SetLevel (Sample.svc (PlainWriter 1) DebugIssuer) WarnIssuer)
  = WarnIssuer /\
  GetLevel (SetLevel (Sample.svc (PlainWriter 1) WarnIssuer) 6%N) = WarnIssuer /\
  (minLevel (fst (run_ops (Sample.svc (PlainWriter 1) DebugIssuer) []
                    [OpSetLevel 7%N; OpUpdateWriter (Some (LockWriter 2));
                     OpSetLevel DisableIssuer; OpSetLevel 4294967295%N]))
   <= DisableIssuer)%N.
Proof.
  destruct minLevel_bounded as [_ [Hpanic [Hset [Hkeep Hrun]]]].
  split; [apply Hpanic; reflexivity|].
  split; [apply Hset; vm_compute; discriminate|].
  split; [apply (Hkeep (Sample.svc (PlainWriter 1) WarnIssuer) 6%N); reflexivity|].
  apply Hrun. vm_compute. discriminate.
Defined.



(** * Further properties of the engine *)

(** ** Construction *)

Lemma length_append (a b : string) :
  String.length (a ++ b) = String.length a + String.length b.
Proof.
  induction a as [|c a IH]; simpl; [reflexivity | now rewrite IH].
Qed.

Lemma substring_prefix (a b : string) :
  substring 0 (String.length a) (a ++ b) = a.
Proof.
  induction a as [|c a IH]; simpl.
  - now destruct b.
  - now rewrite IH.
Qed.

Lemma delimited_name_valid (bare : string) :
  invalid_name (": " ++ bare ++ ":") = false.
Proof.
  unfold invalid_name.
  change (": " ++ bare ++ ":") with (String ":" (String " " (bare ++ ":"))).
  assert (Hlast : byte_is (String ":" (String " " (bare ++ ":")))
                    (String.length (String ":" (String " " (bare ++ ":"))) - 1)
                    ":"%char = true).
  { unfold byte_is. rewrite get_last.
    change (String ":" (String " " (bare ++ ":")))
      with ((": " ++ bare) ++ String ":" "").
    now rewrite last_byte_append_cons. }
  rewrite Hlast. simpl String.length. rewrite length_append. simpl.
  replace (String.length bare + 1) with (S (String.length bare)) by lia.
  reflexivity.
Qed.

Lemma delimited_name_bare (bare : string) :
  substring 2 (String.length (": " ++ bare ++ ":") - 1 - 2) (": " ++ bare ++ ":")
  = bare.
Proof.
  change (": " ++ bare ++ ":") with (String ":" (String " " (bare ++ ":"))).
  simpl String.length. rewrite length_append. simpl String.length.
  replace (S (S (String.length bare + 1)) - 1 - 2) with (String.length bare) by lia.
  change (substring 2 (String.length bare) (String ":" (String " " (bare ++ ":"))))
    with (substring 0 (String.length bare) (bare ++ ":")).
  apply substring_prefix.
Qed.

Lemma New_returns (n : string) (d : Writer) (minLvl : Severity)
    (opts : list Option) :
  invalid_name n = false ->
  (minLvl <= DisableIssuer)%N ->
  New n (Some d) minLvl opts
  = Ret (fold_left (fun l opt => apply_Option opt l) opts
           (mkLogger n (Some d) minLvl "2006-01-02 15:04:05.000000" false
              ["debug:"; "info:"; "warn:"; "error:"; "fatal:"])).
Proof.
  intros Hn Hm. unfold New. rewrite Hn. simpl.
  replace (DisableIssuer <? minLvl)%N with false
    by (symmetry; now apply N.ltb_ge).
  reflexivity.
Qed.

(** X1: the checks of [New].  A name that is not of the form
    [": " ++ bare ++ ":"] makes [New] panic with the message about the name
    format, before anything else is looked at; a name of that form with a
    nil destination or a level above [DisableIssuer] makes it panic with
    the message about the writer or level; both whatever the options are,
    as the options are run after the checks.  With options made by the
    option constructors of the package ([WithTimeFormat], [WithUTC],
    [WithSeverityNames]), [New] returns a logger in every other case and
    only then, and the logger holds the name, the destination and the
    level it was given. *)
Theorem New_returns_iff (n : string) (w : option Writer) (minLvl : Severity)
    (opts : list Option) :
  ((exists l, New n w minLvl opts = Ret l) <->
   (exists bare, n = ": " ++ bare ++ ":") /\ w <> None
   /\ (minLvl <= DisableIssuer)%N) /\
  (forall l, New n w minLvl opts = Ret l ->
             name l = n /\ writer l = w /\ minLevel l = minLvl) /\
  ((forall bare, n <> ": " ++ bare ++ ":") ->
   New n w minLvl opts
   = Panicked (PanicMsg "loggy: invalid name format - use ': name:'")) /\
  ((exists bare, n = ": " ++ bare ++ ":") ->
   w = None \/ (DisableIssuer < minLvl)%N ->
   New n w minLvl opts
   = Panicked (PanicMsg "loggy: invalid writer or severity level")).
Proof.
  split; [|split; [|split]].
  - split.
    + intros [l H]. apply New_inv in H.
      destruct H as [Hn [Hw [Hm _]]].
      split; [|split; assumption].
      destruct (valid_name_shape n Hn) as [_ Hshape]. eauto.
    + intros [[bare ->] [Hw Hm]]. destruct w as [d|]; [|now elim Hw].
      rewrite (New_returns _ d minLvl opts (delimited_name_valid bare) Hm). eauto.
  - intros l H. apply New_inv in H. tauto.
  - intros Hbad. unfold New. destruct (invalid_name n) eqn:Hn; [reflexivity|].
    destruct (valid_name_shape n Hn) as [_ Hshape]. now elim (Hbad _ Hshape).
  - intros [bare ->] Hcase. unfold New. rewrite delimited_name_valid.
    destruct Hcase as [-> | Hgt]; [reflexivity|].
    apply N.ltb_lt in Hgt. rewrite Hgt. now rewrite orb_true_r.
Qed.

Lemma New_returns_iff_witness :
  (exists l, New ": billing:" (Some (LockWriter 4)) DisableIssuer [WithUTC true]
             = Ret l) /\
  New "billing" (Some (LockWriter 4)) 9%N []
  = Panicked (PanicMsg "loggy: invalid name format - use ': name:'") /\
  New ": billing:" (Some (LockWriter 4)) 9%N []
  = Panicked (PanicMsg "loggy: invalid writer or severity level") /\
  New ": billing:" None DebugIssuer []
  = Panicked (PanicMsg "loggy: invalid writer or severity level").
Proof.
  split; [|split; [|split]].
  - apply (New_returns_iff ": billing:" (Some (LockWriter 4)) DisableIssuer
             [WithUTC true]).
    split; [exists "billing"; reflexivity|].
    split; [discriminate | vm_compute; discriminate].
  - apply (New_returns_iff "billing" (Some (LockWriter 4)) 9%N []).
    intros bare H. discriminate H.
  - apply (New_returns_iff ": billing:" (Some (LockWriter 4)) 9%N []).
    + exists "billing". reflexivity.
    + right. reflexivity.
  - apply (New_returns_iff ": billing:" None DebugIssuer []).
    + exists "billing". reflexivity.
    + left. reflexivity.
Defined.



Lemma options_keep_timeFormat (opts : list Option) (l : Logger) :
  forallb (fun o => negb (sets_timeFormat o)) opts = true ->
  timeFormat (fold_left (fun l opt => apply_Option opt l) opts l) = timeFormat l.
Proof.
  revert l. induction opts as [|opt opts IH]; intros l H; [reflexivity|].
  simpl in H. apply andb_true_iff in H as [Hopt H].
  simpl. rewrite (IH _ H).
  destruct opt as [f|u|names]; simpl in *; try discriminate; try reflexivity.
  now destruct (Nat.eqb (List.length names) 5).
Qed.

Lemma options_keep_useUTC (opts : list Option) (l : Logger) :
  forallb (fun o => negb (sets_useUTC o)) opts = true ->
  useUTC (fold_left (fun l opt => apply_Option opt l) opts l) = useUTC l.
Proof.
  revert l. induction opts as [|opt opts IH]; intros l H; [reflexivity|].
  simpl in H. apply andb_true_iff in H as [Hopt H].
  simpl. rewrite (IH _ H).
  destruct opt as [f|u|names]; simpl in *; try discriminate; try reflexivity.
  now destruct (Nat.eqb (List.length names) 5).
Qed.

Lemma options_keep_severityNames (opts : list Option) (l : Logger) :
  forallb (fun o => negb (sets_severityNames o)) opts = true ->
  severityNames (fold_left (fun l opt => apply_Option opt l) opts l)
  = severityNames l.
Proof.
  revert l. induction opts as [|opt opts IH]; intros l H; [reflexivity|].
  simpl in H. apply andb_true_iff in H as [Hopt H].
  simpl. rewrite (IH _ H).
  destruct opt as [f|u|names]; simpl in *; try reflexivity.
  destruct (Nat.eqb (List.length names) 5); [discriminate | reflexivity].
Qed.

Lemma New_fold (n : string) (w : option Writer) (minLvl : Severity)
    (opts : list Option) (l : Logger) :
  New n w minLvl opts = Ret l ->
  l = fold_left (fun l opt => apply_Option opt l) opts
        (mkLogger n w minLvl "2006-01-02 15:04:05.000000" false
           ["debug:"; "info:"; "warn:"; "error:"; "fatal:"]).
Proof.
  intros H. pose proof (New_inv _ _ _ _ _ H) as [Hn [Hw [Hm _]]].
  destruct w as [d|]; [|now elim Hw].
  rewrite (New_returns n d minLvl opts Hn Hm) in H. now injection H as <-.
Qed.

(** X2: options are applied in the order given and each sets one field
    only.  A field no option sets keeps its default (the layout
    ["2006-01-02 15:04:05.000000"], local time, the five lower-case labels);
    otherwise the last option that sets the field decides it, where a
    [WithSeverityNames] that does not hold five labels sets nothing. *)
Theorem New_last_option_wins (n : string) (w : option Writer)
    (minLvl : Severity) (opts : list Option) (l : Logger) :
  New n w minLvl opts = Ret l ->
  (forallb (fun o => negb (sets_timeFormat o)) opts = true ->
   timeFormat l = "2006-01-02 15:04:05.000000") /\
  (forallb (fun o => negb (sets_useUTC o)) opts = true -> useUTC l = false) /\
  (forallb (fun o => negb (sets_severityNames o)) opts = true ->
   severityNames l = ["debug:"; "info:"; "warn:"; "error:"; "fatal:"]) /\
  (forall pre post format,
     opts = (pre ++ WithTimeFormat format :: post)%list ->
     forallb (fun o => negb (sets_timeFormat o)) post = true ->
     timeFormat l = format) /\
  (forall pre post utc,
     opts = (pre ++ WithUTC utc :: post)%list ->
     forallb (fun o => negb (sets_useUTC o)) post = true ->
     useUTC l = utc) /\
  (forall pre post names,
     opts = (pre ++ WithSeverityNames names :: post)%list ->
     List.length names = 5%nat ->
     forallb (fun o => negb (sets_severityNames o)) post = true ->
     severityNames l = names).
Proof.
  intros HNew. apply New_fold in HNew. subst l.
  split; [|split; [|split; [|split; [|split]]]].
  - intros H. now rewrite options_keep_timeFormat.
  - intros H. now rewrite options_keep_useUTC.
  - intros H. now rewrite options_keep_severityNames.
  - intros pre post format -> H.
    rewrite fold_left_app. simpl. now rewrite options_keep_timeFormat.
  - intros pre post utc -> H.
    rewrite fold_left_app. simpl. now rewrite options_keep_useUTC.
  - intros pre post names -> Hlen H.
    rewrite fold_left_app. simpl. rewrite Hlen. simpl.
    now rewrite options_keep_severityNames.
Qed.

Lemma New_last_option_wins_witness :
  New ": svc:" (Some (PlainWriter 1)) DebugIssuer
    [WithTimeFormat "15:04:05"; WithSeverityNames ["D"; "I"; "W"; "E"; "F"];
     WithTimeFormat "Jan 2 15:04"; WithSeverityNames ["too"; "few"]]
  = Ret (mkLogger ": svc:" (Some (PlainWriter 1)) DebugIssuer "Jan 2 15:04"
           false ["D"; "I"; "W"; "E"; "F"]) /\
  timeFormat (mkLogger ": svc:" (Some (PlainWriter 1)) DebugIssuer "Jan 2 15:04"
                false ["D"; "I"; "W"; "E"; "F"]) = "Jan 2 15:04" /\
  useUTC (mkLogger ": svc:" (Some (PlainWriter 1)) DebugIssuer "Jan 2 15:04"
            false ["D"; "I"; "W"; "E"; "F"]) = false /\
  severityNames (mkLogger ": svc:" (Some (PlainWriter 1)) DebugIssuer
                   "Jan 2 15:04" false ["D"; "I"; "W"; "E"; "F"])
  = ["D"; "I"; "W"; "E"; "F"].
Proof.
  assert (HNew :
    New ": svc:" (Some (PlainWriter 1)) DebugIssuer
      [WithTimeFormat "15:04:05"; WithSeverityNames ["D"; "I"; "W"; "E"; "F"];
       WithTimeFormat "Jan 2 15:04"; WithSeverityNames ["too"; "few"]]
    = Ret (mkLogger ": svc:" (Some (PlainWriter 1)) DebugIssuer "Jan 2 15:04"
             false ["D"; "I"; "W"; "E"; "F"])) by reflexivity.
  split; [exact HNew|].
  destruct (New_last_option_wins _ _ _ _ _ HNew)
    as [_ [Hutc [_ [Hformat [_ Hnames]]]]].
  split; [|split].
  - apply (Hformat [WithTimeFormat "15:04:05";
                    WithSeverityNames ["D"; "I"; "W"; "E"; "F"]]
             [WithSeverityNames ["too"; "few"]]); reflexivity.
  - apply Hutc. reflexivity.
  - apply (Hnames [WithTimeFormat "15:04:05"]
             [WithTimeFormat "Jan 2 15:04"; WithSeverityNames ["too"; "few"]]);
      reflexivity.
Defined.

(** ** The write path, on any logger *)

Section WritePathMore.

Context `{P : Platform}.

Lemma Log_emit_outcome (env : Ambient) (l : Logger) (level : Severity)
    (skip : Z) (rest : list Value) (tr : Trace) :
  (exists w line,
     writer l = Some w /\
     Log_emit env l level skip rest tr
     = (Ret (writer_Write w line (tr ++ lock_events w)%list),
        (tr ++ lock_events w ++ [EvWrite w line] ++ unlock_events w)%list)) \/
  (exists p, Log_emit env l level skip rest tr = (Panicked p, tr)).
Proof.
  destruct (nth_error (severityNames l) (N.to_nat level)) as [label|] eqn:Hlabel.
  - destruct (writer l) as [w|] eqn:Hw.
    + left. exists w, (entry env l label skip rest). split; [reflexivity|].
      now apply Log_emit_spec.
    + right. exists PanicNilDeref.
      unfold Log_emit, bind, index. rewrite Hlabel, Hw. reflexivity.
  - right. exists (PanicIndex level (List.length (severityNames l))).
    unfold Log_emit, bind, index. rewrite Hlabel. reflexivity.
Qed.

Lemma Log_not_accepted (env : Ambient) (l : Logger) (level : Severity)
    (msg : list Value) (tr : Trace) :
  accepted l level msg = false -> Log env l level msg tr = (Ret None, tr).
Proof.
  unfold accepted. intros H.
  apply andb_false_iff in H as [H | H]; [apply andb_false_iff in H as [H | H]|].
  - apply N.leb_gt in H. apply Log_filtered.
    apply N.ltb_lt in H. now rewrite H.
  - apply N.ltb_ge in H. apply Log_filtered.
    apply N.leb_le in H. rewrite H. now rewrite orb_true_r.
  - apply negb_false_iff in H. apply Nat.eqb_eq in H.
    destruct msg as [|[d|s|k|b] [|v rest]]; simpl in H; try discriminate H.
    + apply Log_filtered. now rewrite !orb_true_r.
    + apply Log_marker_alone.
Qed.

Lemma accepted_true (l : Logger) (level : Severity) (msg : list Value) :
  accepted l level msg = true ->
  (minLevel l <= level)%N /\ (level < DisableIssuer)%N
  /\ snd (split_caller msg) <> [].
Proof.
  unfold accepted. intros H.
  apply andb_true_iff in H as [H Hrest]. apply andb_true_iff in H as [Hmin Hmax].
  apply N.leb_le in Hmin. apply N.ltb_lt in Hmax.
  repeat split; try assumption.
  intros E. rewrite E in Hrest. discriminate.
Qed.

(** X4: what a call of [Log] can do, on any logger (also one that [New]
    did not make).  Either it returns nil and the trace is as before; or it
    hands one line to the current destination of the logger, inside a
    [Lock]/[Unlock] pair of that destination when it has the capability and
    with no lock event otherwise, and returns what that write returned, so
    that the lock is released also when the write fails; or it panics
    before any lock or write took place. *)
Theorem Log_outcome (env : Ambient) (l : Logger) (level : Severity)
    (msg : list Value) (tr : Trace) :
  Log env l level msg tr = (Ret None, tr) \/
  (exists w line,
     writer l = Some w /\
     Log env l level msg tr
     = (Ret (writer_Write w line (tr ++ lock_events w)%list),
        (tr ++ lock_events w ++ [EvWrite w line] ++ unlock_events w)%list)) \/
  (exists p, Log env l level msg tr = (Panicked p, tr)).
Proof.
  destruct (accepted l level msg) eqn:Hacc.
  - right. apply accepted_true in Hacc as [Hmin [Hmax Hrest]].
    assert (HLog : Log env l level msg tr
                   = Log_emit env l level (fst (split_caller msg))
                       (snd (split_caller msg)) tr).
    { unfold Log.
      replace (level <? minLevel l)%N with false
        by (symmetry; now apply N.ltb_ge).
      replace (DisableIssuer <=? level)%N with false
        by (symmetry; now apply N.leb_gt).
      destruct msg as [|[d|s|k|b] rest]; try reflexivity; [now elim Hrest|].
      destruct rest as [|v rest]; [now elim Hrest | reflexivity]. }
    rewrite HLog. apply Log_emit_outcome.
  - left. now apply Log_not_accepted.
Qed.

(** X5: [Log] writes exactly when the call is accepted.  On any logger, a
    call whose level is below the minimum or not below [DisableIssuer], or
    that holds no component besides a leading caller-depth marker, returns
    nil and leaves the trace alone; on a logger with five labels and a
    destination, every other call hands exactly one more line to the
    destination. *)
Theorem Log_writes_iff_accepted (env : Ambient) (l : Logger) (level : Severity)
    (msg : list Value) (tr : Trace) :
  (accepted l level msg = false -> Log env l level msg tr = (Ret None, tr)) /\
  (forall w,
     List.length (severityNames l) = 5%nat ->
     writer l = Some w ->
     (accepted l level msg = true ->
      exists line,
        written (snd (Log env l level msg tr)) = (written tr ++ [line])%list) /\
     (written (snd (Log env l level msg tr)) <> written tr
      <-> accepted l level msg = true)).
Proof.
  split; [apply Log_not_accepted|].
  intros w Hlen Hw.
  assert (Hyes : accepted l level msg = true ->
                 exists line,
                   written (snd (Log env l level msg tr))
                   = (written tr ++ [line])%list).
  { intros Hacc. apply accepted_true in Hacc as [Hmin [Hmax Hrest]].
    destruct (Log_accepted env l level msg tr w Hlen Hw Hmin Hmax Hrest)
      as [label [_ HLog]].
    cbv zeta in HLog. rewrite HLog. cbn [snd].
    rewrite written_after_entry. eauto. }
  split; [exact Hyes|].
  split.
  - intros Hdiff. destruct (accepted l level msg) eqn:Hacc; [reflexivity|].
    elim Hdiff. now rewrite (Log_not_accepted env l level msg tr Hacc).
  - intros Hacc. destruct (Hyes Hacc) as [line Hline]. rewrite Hline.
    intros E. apply (f_equal (@List.length string)) in E.
    rewrite length_app in E. simpl in E. lia.
Qed.

End WritePathMore.

Lemma Log_outcome_witness :
  Log Sample.env (Sample.svc (LockWriter 5) DebugIssuer) InfoIssuer
    [VString "up"] []
  = (Ret None,
     [EvLock (LockWriter 5);
      EvWrite (LockWriter 5)
        ("2024-01-02 03:04:05.000000: svc:info: main.go:42: up" ++ NL);
      EvUnlock (LockWriter 5)]) /\
  Log Sample.env (mkLogger ": svc:" None DebugIssuer "" false ["debug:"])
    DebugIssuer [VString "up"] []
  = (Panicked PanicNilDeref, []) /\
  Log Sample.env (mkLogger ": svc:" (Some (LockWriter 5)) DebugIssuer "" false
                    ["debug:"])
    InfoIssuer [VString "up"] []
  = (Panicked (PanicIndex 1 1), []).
Proof.
  split; [|split].
  - destruct (@Log_outcome Sample.platform Sample.env
                (Sample.svc (LockWriter 5) DebugIssuer) InfoIssuer
                [VString "up"] []) as [H | [[w [line [Hw H]]] | [p H]]];
      [discriminate H | | discriminate H].
    injection Hw as <-. vm_compute in H. injection H as <-. reflexivity.
  - destruct (@Log_outcome Sample.platform Sample.env
                (mkLogger ": svc:" None DebugIssuer "" false ["debug:"])
                DebugIssuer [VString "up"] [])
      as [H | [[w [line [Hw H]]] | [p H]]];
      [discriminate H | discriminate Hw |].
    vm_compute in H. injection H as <-. reflexivity.
  - destruct (@Log_outcome Sample.platform Sample.env
                (mkLogger ": svc:" (Some (LockWriter 5)) DebugIssuer "" false
                   ["debug:"])
                InfoIssuer [VString "up"] [])
      as [H | [[w [line [Hw H]]] | [p H]]];
      [discriminate H | discriminate H |].
    vm_compute in H. injection H as <-. reflexivity.
Defined.

Lemma Log_writes_iff_accepted_witness :
  Log Sample.env (mkLogger "" None WarnIssuer "" false []) InfoIssuer
    [VString "quiet"] [] = (Ret None, []) /\
  (exists line,
     written (snd (Log Sample.env (Sample.svc (PlainWriter 1) WarnIssuer)
                     ErrorIssuer [VCaller 1; VInt 7] []))
     = [line]).
Proof.
  split.
  - apply (@Log_writes_iff_accepted Sample.platform Sample.env
             (mkLogger "" None WarnIssuer "" false []) InfoIssuer
             [VString "quiet"] []). reflexivity.
  - apply (proj2 (@Log_writes_iff_accepted Sample.platform Sample.env
                    (Sample.svc (PlainWriter 1) WarnIssuer) ErrorIssuer
                    [VCaller 1; VInt 7] []) (PlainWriter 1));
      reflexivity.
Defined.

(** ** The per-level wrappers *)

Section Wrappers.

Context `{P : Platform}.

(** X6: [Debug], [Info], [Warn] and [Error] log at the levels 0, 1, 2 and 3
    with the label at that index, and hand a leading caller-depth marker
    on to [Log]: on a logger with five labels and a destination, the
    wrapper writes the one line of its level, with the call site at the
    clamped depth of the marker, when the call is accepted, and returns nil
    without touching the destination otherwise. *)
Theorem level_wrappers (env : Ambient) (l : Logger) (msg : list Value)
    (tr : Trace) (w : Writer)
    (wrapper : Ambient -> Logger -> list Value -> Go (option string))
    (level : Severity) :
  List.length (severityNames l) = 5%nat ->
  writer l = Some w ->
  In (wrapper, level)
     [(Debug, DebugIssuer); (Info, InfoIssuer); (Warn, WarnIssuer);
      (Error, ErrorIssuer)] ->
  exists label,
    nth_error (severityNames l) (N.to_nat level) = Some label /\
    let line :=
      entry env l label (fst (split_caller msg)) (snd (split_caller msg)) in
    wrapper env l msg tr
    = if accepted l level msg
      then (Ret (writer_Write w line (tr ++ lock_events w)%list),
            (tr ++ lock_events w ++ [EvWrite w line] ++ unlock_events w)%list)
      else (Ret None, tr).
Proof.
  intros Hlen Hw Hin.
  assert (Hlt : (level < DisableIssuer)%N).
  { simpl in Hin.
    destruct Hin as [E | [E | [E | [E | []]]]]; injection E as _ <-; reflexivity. }
  destruct (index_in_bounds _ _ Hlen Hlt) as [label Hlabel].
  exists label. split; [exact Hlabel|]. cbv zeta.
  assert (HLog : wrapper env l msg tr = Log env l level msg tr).
  { simpl in Hin.
    destruct Hin as [E | [E | [E | [E | []]]]]; injection E as <- <-; reflexivity. }
  rewrite HLog. destruct (accepted l level msg) eqn:Hacc.
  - apply accepted_true in Hacc as [Hmin [_ Hrest]].
    destruct (Log_accepted env l level msg tr w Hlen Hw Hmin Hlt Hrest)
      as [label' [Hlabel' HLog']].
    rewrite Hlabel in Hlabel'. injection Hlabel' as <-. exact HLog'.
  - now apply Log_not_accepted.
Qed.

(** X7: [Debugf], [Infof], [Warnf] and [Errorf] hand [Log] the formatted
    text as its only component: no caller-depth marker is ever read (the
    call site is the frame at depth 2) and the text is the message as it
    is.  On a logger with five labels and a destination, they write the one
    line of their level whenever the minimum level lets it through, also
    when the formatted text is empty, and return nil without touching the
    destination otherwise. *)
Theorem formatted_wrappers (env : Ambient) (l : Logger) (format : string)
    (args : list Value) (tr : Trace) (w : Writer)
    (wrapper : Ambient -> Logger -> string -> list Value -> Go (option string))
    (level : Severity) :
  List.length (severityNames l) = 5%nat ->
  writer l = Some w ->
  In (wrapper, level)
     [(Debugf, DebugIssuer); (Infof, InfoIssuer); (Warnf, WarnIssuer);
      (Errorf, ErrorIssuer)] ->
  exists label,
    nth_error (severityNames l) (N.to_nat level) = Some label /\
    let now := if useUTC l then time_UTC (time_Now env) else time_Now env in
    let text := fmt_Sprintf format args in
    let site :=
      match runtime_Caller env 2%Z with
      | Some (file, ln) =>
          " " ++ filepath_Base file ++ ":" ++ strconv_Itoa ln ++ ":"
      | None => ""
      end in
    let line :=
      time_Format now (timeFormat l) ++ name l ++ label ++ site ++ " " ++ text
      ++ (if ends_with_newline text then "" else NL) in
    wrapper env l format args tr
    = if (minLevel l <=? level)%N
      then (Ret (writer_Write w line (tr ++ lock_events w)%list),
            (tr ++ lock_events w ++ [EvWrite w line] ++ unlock_events w)%list)
      else (Ret None, tr).
Proof.
  intros Hlen Hw Hin.
  assert (Hlt : (level < DisableIssuer)%N).
  { simpl in Hin.
    destruct Hin as [E | [E | [E | [E | []]]]]; injection E as _ <-; reflexivity. }
  destruct (index_in_bounds _ _ Hlen Hlt) as [label Hlabel].
  exists label. split; [exact Hlabel|]. cbv zeta.
  assert (HLog : wrapper env l format args tr
                 = Log env l level [VString (fmt_Sprintf format args)] tr).
  { simpl in Hin.
    destruct Hin as [E | [E | [E | [E | []]]]]; injection E as <- <-; reflexivity. }
  rewrite HLog. destruct (N.leb_spec (minLevel l) level) as [Hmin | Hmin].
  - destruct (Log_accepted env l level [VString (fmt_Sprintf format args)] tr w
                Hlen Hw Hmin Hlt) as [label' [Hlabel' HLog']]; [discriminate|].
    rewrite Hlabel in Hlabel'. injection Hlabel' as <-. exact HLog'.
  - apply Log_filtered. apply N.ltb_lt in Hmin. now rewrite Hmin.
Qed.

End Wrappers.

Lemma level_wrappers_witness :
  Warn Sample.env (Sample.svc (PlainWriter 1) InfoIssuer)
    [VCaller 1; VString "cache miss "; VInt 3] []
  = (Ret None,
     [EvWrite (PlainWriter 1)
        ("2024-01-02 03:04:05.000000: svc:warn: run.go:7: cache miss 3" ++ NL)])
  /\
  Debug Sample.env (Sample.svc (PlainWriter 1) InfoIssuer)
    [VString "verbose"] [] = (Ret None, []).
Proof.
  split.
  - destruct (@level_wrappers Sample.platform Sample.env
                (Sample.svc (PlainWriter 1) InfoIssuer)
                [VCaller 1; VString "cache miss "; VInt 3] [] (PlainWriter 1)
                Warn WarnIssuer) as [label [Hlabel H]];
      [reflexivity | reflexivity | simpl; tauto |].
    vm_compute in Hlabel. injection Hlabel as <-. exact H.
  - destruct (@level_wrappers Sample.platform Sample.env
                (Sample.svc (PlainWriter 1) InfoIssuer)
                [VString "verbose"] [] (PlainWriter 1)
                Debug DebugIssuer) as [label [Hlabel H]];
      [reflexivity | reflexivity | simpl; tauto |].
    exact H.
Defined.

Lemma formatted_wrappers_witness :
  Errorf Sample.env (Sample.svc (LockWriter 2) DebugIssuer) "" [] []
  = (Ret None,
     [EvLock (LockWriter 2);
      EvWrite (LockWriter 2)
        ("2024-01-02 03:04:05.000000: svc:error: main.go:42: " ++ NL);
      EvUnlock (LockWriter 2)]).
Proof.
  destruct (@formatted_wrappers Sample.platform Sample.env
              (Sample.svc (LockWriter 2) DebugIssuer) "" [] [] (LockWriter 2)
              Errorf ErrorIssuer) as [label [Hlabel H]];
    [reflexivity | reflexivity | simpl; tauto |].
  vm_compute in Hlabel. injection Hlabel as <-. exact H.
Defined.

(** ** The runtime mutators *)

Lemma run_op_keeps (l : Logger) (tr : Trace) (op : Op) :
  name (fst (run_op (l, tr) op)) = name l /\
  timeFormat (fst (run_op (l, tr) op)) = timeFormat l /\
  useUTC (fst (run_op (l, tr) op)) = useUTC l /\
  severityNames (fst (run_op (l, tr) op)) = severityNames l /\
  written (snd (run_op (l, tr) op)) = written tr /\
  (writer l <> None -> writer (fst (run_op (l, tr) op)) <> None).
Proof.
  destruct op as [level|w]; simpl.
  - unfold SetLevel. destruct (level <=? DisableIssuer)%N; simpl; tauto.
  - destruct (UpdateWriter_result l w tr) as [[ok [tr' [E [Hok Hwr]]]] | E];
      rewrite E; simpl; [|tauto].
    destruct ok; simpl; repeat split; auto.
Qed.

(** X8: [SetLevel] and [UpdateWriter] change nothing but the minimum level
    and the destination.  After any run of them the name (and so the
    answer of [Name]), the time layout, the UTC flag and the labels are
    those of before, nothing has been written to any destination, and a
    logger that had a destination still has one. *)
Theorem mutators_keep_configuration (ops : list Op) (l : Logger) (tr : Trace) :
  name (fst (run_ops l tr ops)) = name l /\
  Name (fst (run_ops l tr ops)) = Name l /\
  timeFormat (fst (run_ops l tr ops)) = timeFormat l /\
  useUTC (fst (run_ops l tr ops)) = useUTC l /\
  severityNames (fst (run_ops l tr ops)) = severityNames l /\
  written (snd (run_ops l tr ops)) = written tr /\
  (writer l <> None -> writer (fst (run_ops l tr ops)) <> None).
Proof.
  assert (Hmain :
    name (fst (run_ops l tr ops)) = name l /\
    timeFormat (fst (run_ops l tr ops)) = timeFormat l /\
    useUTC (fst (run_ops l tr ops)) = useUTC l /\
    severityNames (fst (run_ops l tr ops)) = severityNames l /\
    written (snd (run_ops l tr ops)) = written tr /\
    (writer l <> None -> writer (fst (run_ops l tr ops)) <> None)).
  { unfold run_ops. revert l tr.
    induction ops as [|op ops IH]; intros l tr; [simpl; tauto|].
    cbn [fold_left].
    pose proof (run_op_keeps l tr op) as [Hn [Hf [Hu [Hs [Hw Hd]]]]].
    destruct (run_op (l, tr) op) as [l1 tr1]. cbn [fst snd] in *.
    destruct (IH l1 tr1) as [Hn' [Hf' [Hu' [Hs' [Hw' Hd']]]]].
    rewrite Hn', Hf', Hu', Hs', Hw'. repeat split; auto. }
  destruct Hmain as [Hn [Hf [Hu [Hs [Hw Hd]]]]].
  repeat split; try assumption.
  unfold Name. now rewrite Hn.
Qed.

Lemma mutators_keep_configuration_witness :
  Name (fst (run_ops (Sample.svc (LockWriter 1) DebugIssuer) []
               [OpUpdateWriter None; OpSetLevel ErrorIssuer;
                OpUpdateWriter (Some (LockWriter 2));
                OpUpdateWriter (Some (PlainWriter 3))]))
  = Ret "svc" /\
  writer (fst (run_ops (Sample.svc (LockWriter 1) DebugIssuer) []
                 [OpUpdateWriter None; OpSetLevel ErrorIssuer;
                  OpUpdateWriter (Some (LockWriter 2));
                  OpUpdateWriter (Some (PlainWriter 3))]))
  <> None.
Proof.
  destruct (mutators_keep_configuration
              [OpUpdateWriter None; OpSetLevel ErrorIssuer;
               OpUpdateWriter (Some (LockWriter 2));
               OpUpdateWriter (Some (PlainWriter 3))]
              (Sample.svc (LockWriter 1) DebugIssuer) [])
    as [_ [HName [_ [_ [_ [_ Hw]]]]]].
  split; [rewrite HName; reflexivity | apply Hw; discriminate].
Defined.

Section Mutators.

Context `{P : Platform}.

(** X9: the minimum level only filters.  After [SetLevel] to
    [DisableIssuer] no call of [Log] writes, whatever its level; a
    [SetLevel] to a valid level that still lets a call through leaves what
    [Log] does for it unchanged; of two [SetLevel] calls in a row the
    second decides when its level is valid and the first when it is
    not. *)
Theorem SetLevel_only_filters (env : Ambient) (l : Logger)
    (a b level : Severity) (msg : list Value) (tr : Trace) :
  Log env (SetLevel l DisableIssuer) level msg tr = (Ret None, tr) /\
  ((b <= DisableIssuer)%N -> (b <= level)%N -> (minLevel l <= level)%N ->
   Log env (SetLevel l b) level msg tr = Log env l level msg tr) /\
  ((b <= DisableIssuer)%N -> SetLevel (SetLevel l a) b = SetLevel l b) /\
  ((DisableIssuer < b)%N -> SetLevel (SetLevel l a) b = SetLevel l a).
Proof.
  split; [|split; [|split]].
  - apply Log_filtered. simpl.
    destruct (N.ltb_spec level DisableIssuer) as [Hlt | Hge]; [reflexivity|].
    apply N.leb_le in Hge. rewrite Hge. now rewrite orb_true_r.
  - intros Hb Hbl Hml. unfold SetLevel.
    apply N.leb_le in Hb. rewrite Hb. unfold Log.
    change (minLevel (set_minLevel l b)) with b.
    replace (level <? b)%N with false by (symmetry; now apply N.ltb_ge).
    replace (level <? minLevel l)%N with false by (symmetry; now apply N.ltb_ge).
    reflexivity.
  - intros Hb. unfold SetLevel at 1. apply N.leb_le in Hb. rewrite Hb.
    unfold SetLevel. rewrite Hb.
    now destruct (a <=? DisableIssuer)%N.
  - intros Hb. unfold SetLevel at 1. apply N.leb_gt in Hb. now rewrite Hb.
Qed.

(** X10: [Log] follows the destination.  On a logger with five labels and a
    destination, take an accepted call and run [UpdateWriter] first: when
    the update succeeded the line goes to the new destination, under its
    lock when it has one, and when the update was rejected the line goes to
    the destination of before; the line itself is the same either way. *)
Theorem UpdateWriter_then_Log (env : Ambient) (l : Logger)
    (w : option Writer) (cur : Writer) (level : Severity) (msg : list Value)
    (tr tr1 : Trace) (ok : bool) (l' : Logger) :
  List.length (severityNames l) = 5%nat ->
  writer l = Some cur ->
  accepted l level msg = true ->
  UpdateWriter l w tr = (Ret (ok, l'), tr1) ->
  exists label dest,
    nth_error (severityNames l) (N.to_nat level) = Some label /\
    (if ok then w = Some dest else dest = cur) /\
    let line :=
      entry env l label (fst (split_caller msg)) (snd (split_caller msg)) in
    Log env l' level msg tr1
    = (Ret (writer_Write dest line (tr1 ++ lock_events dest)%list),
       (tr1 ++ lock_events dest ++ [EvWrite dest line] ++ unlock_events dest)%list).
Proof.
  intros Hlen Hw Hacc HU.
  apply accepted_true in Hacc as [Hmin [Hmax Hrest]].
  destruct (UpdateWriter_result l w tr) as [[ok0 [tr0 [E [Hok _]]]] | E];
    [|rewrite E in HU; discriminate HU].
  rewrite E in HU. injection HU as <- <- <-.
  destruct ok0.
  - destruct w as [dest|]; [|now elim (Hok eq_refl)].
    destruct (Log_accepted env (set_writer l (Some dest)) level msg tr0 dest
                Hlen eq_refl Hmin Hmax Hrest) as [label [Hlabel HLog]].
    exists label, dest. split; [exact Hlabel|]. split; [reflexivity|].
    exact HLog.
  - destruct (Log_accepted env l level msg tr0 cur Hlen Hw Hmin Hmax Hrest)
      as [label [Hlabel HLog]].
    exists label, cur. split; [exact Hlabel|]. split; [reflexivity|].
    exact HLog.
Qed.

End Mutators.

Lemma SetLevel_only_filters_witness :
  Log Sample.env (SetLevel (Sample.svc (PlainWriter 1) DebugIssuer) WarnIssuer)
    ErrorIssuer [VString "late"] []
  = Log Sample.env (Sample.svc (PlainWriter 1) DebugIssuer)
      ErrorIssuer [VString "late"] [] /\
  SetLevel (SetLevel (Sample.svc (PlainWriter 1) DebugIssuer) WarnIssuer) 77%N
  = SetLevel (Sample.svc (PlainWriter 1) DebugIssuer) WarnIssuer.
Proof.
  destruct (@SetLevel_only_filters Sample.platform Sample.env
              (Sample.svc (PlainWriter 1) DebugIssuer) DebugIssuer WarnIssuer
              ErrorIssuer [VString "late"] []) as [_ [Hsame _]].
  destruct (@SetLevel_only_filters Sample.platform Sample.env
              (Sample.svc (PlainWriter 1) DebugIssuer) WarnIssuer 77%N
              ErrorIssuer [VString "late"] []) as [_ [_ [_ Hbad]]].
  split.
  - apply Hsame; vm_compute; discriminate.
  - apply Hbad. reflexivity.
Defined.

Lemma UpdateWriter_then_Log_witness :
  UpdateWriter (Sample.svc (LockWriter 1) DebugIssuer) (Some (PlainWriter 3)) []
  = (Ret (true, Sample.svc (PlainWriter 3) DebugIssuer),
     [EvLock (LockWriter 1); EvUnlock (LockWriter 1)]) /\
  Log Sample.env (Sample.svc (PlainWriter 3) DebugIssuer) InfoIssuer
    [VString "moved"] [EvLock (LockWriter 1); EvUnlock (LockWriter 1)]
  = (Ret None,
     [EvLock (LockWriter 1); EvUnlock (LockWriter 1);
      EvWrite (PlainWriter 3)
        ("2024-01-02 03:04:05.000000: svc:info: main.go:42: moved" ++ NL)]).
Proof.
  assert (HU :
    UpdateWriter (Sample.svc (LockWriter 1) DebugIssuer)
      (Some (PlainWriter 3)) []
    = (Ret (true, Sample.svc (PlainWriter 3) DebugIssuer),
       [EvLock (LockWriter 1); EvUnlock (LockWriter 1)])) by reflexivity.
  split; [exact HU|].
  destruct (@UpdateWriter_then_Log Sample.platform Sample.env
              (Sample.svc (LockWriter 1) DebugIssuer) (Some (PlainWriter 3))
              (LockWriter 1) InfoIssuer [VString "moved"] []
              [EvLock (LockWriter 1); EvUnlock (LockWriter 1)] true
              (Sample.svc (PlainWriter 3) DebugIssuer)
              eq_refl eq_refl eq_refl HU)
    as [label [dest [Hlabel [Hdest HLog]]]].
  injection Hdest as <-. vm_compute in Hlabel. injection Hlabel as <-.
  exact HLog.
Defined.

(** ** The line terminator and the caller-depth marker *)

Lemma ends_with_newline_snoc (b : string) : ends_with_newline (b ++ NL) = true.
Proof.
  unfold ends_with_newline, NL. now rewrite last_byte_append_cons.
Qed.

(** X11: the step of [Log] that ends the line.  Its result always ends
    with a line terminator; it is the builder itself when that ends with a
    terminator and the builder followed by one terminator otherwise, the
    empty builder included; doing the step twice is doing it once. *)
Theorem ensure_newline_idempotent (b : string) :
  ends_with_newline (ensure_newline b) = true /\
  (ends_with_newline b = true -> ensure_newline b = b) /\
  (ends_with_newline b = false -> ensure_newline b = b ++ NL) /\
  ensure_newline (ensure_newline b) = ensure_newline b.
Proof.
  assert (Hyes : forall s, ends_with_newline s = true -> ensure_newline s = s).
  { intros s H. unfold ensure_newline. rewrite byte_is_last, H.
    destruct s; [discriminate H | reflexivity]. }
  assert (Hno : forall s, ends_with_newline s = false ->
                          ensure_newline s = s ++ NL).
  { intros s H. unfold ensure_newline. rewrite byte_is_last, H.
    now rewrite orb_true_r. }
  assert (Hend : ends_with_newline (ensure_newline b) = true).
  { destruct (ends_with_newline b) eqn:E.
    - now rewrite (Hyes b E).
    - rewrite (Hno b E). apply ends_with_newline_snoc. }
  split; [exact Hend|]. split; [apply Hyes|]. split; [apply Hno|].
  now apply Hyes.
Qed.

Lemma ensure_newline_idempotent_witness :
  ensure_newline ("done" ++ NL) = "done" ++ NL /\
  ensure_newline "" = NL.
Proof.
  destruct (ensure_newline_idempotent ("done" ++ NL)) as [_ [Hyes _]].
  destruct (ensure_newline_idempotent "") as [_ [_ [Hno _]]].
  split; [apply Hyes; reflexivity | apply Hno; reflexivity].
Defined.

Section Marker.

Context `{P : Platform}.

(** X12: what a caller-depth marker is worth.  A marker and its clamped
    value do the same, so every depth above 99 does what 99 does; a marker
    that is zero or negative in front of components that do not start with
    a marker does what the components alone do; and [Log] reads only the
    first marker: in an accepted call a second marker is not a depth, it is
    rendered with the components after it as the message of the line, and
    the call site is resolved at the clamped depth of the first. *)
Theorem Log_marker_equivalences (env : Ambient) (l : Logger)
    (level : Severity) (depth : Z) (rest : list Value) (tr : Trace) :
  Log env l level (VCaller depth :: rest) tr
  = Log env l level (VCaller (clamp_skip depth) :: rest) tr /\
  ((depth <= 0)%Z ->
   match rest with VCaller _ :: _ => False | _ => True end ->
   Log env l level (VCaller depth :: rest) tr = Log env l level rest tr) /\
  (forall second w,
     List.length (severityNames l) = 5%nat ->
     writer l = Some w ->
     (minLevel l <= level)%N ->
     (level < DisableIssuer)%N ->
     exists label,
       nth_error (severityNames l) (N.to_nat level) = Some label /\
       let now := if useUTC l then time_UTC (time_Now env) else time_Now env in
       let site :=
         match runtime_Caller env (clamp_skip depth + 2)%Z with
         | Some (file, ln) =>
             " " ++ filepath_Base file ++ ":" ++ strconv_Itoa ln ++ ":"
         | None => ""
         end in
       let body := fmt_Sprint (VCaller second :: rest) in
       let line :=
         time_Format now (timeFormat l) ++ name l ++ label ++ site ++ " "
         ++ body ++ (if ends_with_newline body then "" else NL) in
       Log env l level (VCaller depth :: VCaller second :: rest) tr
       = (Ret (writer_Write w line (tr ++ lock_events w)%list),
          (tr ++ lock_events w ++ [EvWrite w line] ++ unlock_events w)%list)).
Proof.
  assert (Hidem : clamp_skip (clamp_skip depth) = clamp_skip depth).
  { unfold clamp_skip.
    destruct (Z.ltb_spec depth 0); [reflexivity|].
    destruct (Z.ltb_spec 99 depth); [reflexivity|].
    destruct (Z.ltb_spec depth 0); [lia|].
    destruct (Z.ltb_spec 99 depth); [lia | reflexivity]. }
  split; [|split].
  - unfold Log. now rewrite Hidem.
  - intros Hneg Hrest.
    assert (Hzero : clamp_skip depth = 0%Z).
    { unfold clamp_skip. destruct (Z.ltb_spec depth 0); [reflexivity|].
      destruct (Z.ltb_spec 99 depth); lia. }
    destruct rest as [|[d|s|k|b] rest'].
    + rewrite Log_marker_alone. symmetry. apply Log_filtered.
      now rewrite !orb_true_r.
    + now elim Hrest.
    + unfold Log. now rewrite Hzero.
    + unfold Log. now rewrite Hzero.
    + unfold Log. now rewrite Hzero.
  - intros second w Hlen Hw Hmin Hmax.
    destruct (Log_accepted env l level (VCaller depth :: VCaller second :: rest)
                tr w Hlen Hw Hmin Hmax) as [label [Hlabel HLog]];
      [discriminate|].
    exists label. split; [exact Hlabel|].
    cbv zeta in HLog |- *. rewrite HLog.
    cbn [split_caller fst snd]. unfold entry.
    now destruct rest.
Qed.

End Marker.

Lemma Log_marker_equivalences_witness :
  Log Sample.env (Sample.svc (PlainWriter 1) DebugIssuer) InfoIssuer
    [VCaller (-3); VString "same"] []
  = Log Sample.env (Sample.svc (PlainWriter 1) DebugIssuer) InfoIssuer
      [VString "same"] [] /\
  Log Sample.env (Sample.svc (PlainWriter 1) DebugIssuer) InfoIssuer
    [VCaller 1; VCaller 2; VString " retries"] []
  = (Ret None,
     [EvWrite (PlainWriter 1)
        ("2024-01-02 03:04:05.000000: svc:info: run.go:7: 2 retries" ++ NL)]).
Proof.
  split.
  - apply (@Log_marker_equivalences Sample.platform Sample.env
             (Sample.svc (PlainWriter 1) DebugIssuer) InfoIssuer (-3)%Z
             [VString "same"] []).
    + lia.
    + exact I.
  - destruct (@Log_marker_equivalences Sample.platform Sample.env
                (Sample.svc (PlainWriter 1) DebugIssuer) InfoIssuer 1%Z
                [VString " retries"] []) as [_ [_ Hsecond]].
    destruct (Hsecond 2%Z (PlainWriter 1)) as [label [Hlabel HLog]];
      [reflexivity | reflexivity | vm_compute; discriminate | reflexivity |].
    vm_compute in Hlabel. injection Hlabel as <-. exact HLog.
Defined.

(** ** The package-level logger *)

Section PackageLevel.

Context `{P : Platform}.

Lemma Default_returns (arg0 : string) :
  Pkg.Default arg0
  = Ret (mkLogger (": " ++ filepath_Base arg0 ++ ":") (Some Pkg.os_Stdout)
           DebugIssuer "2006-01-02 15:04:05.000000" false
           ["debug:"; "info:"; "warn:"; "error:"; "fatal:"]).
Proof.
  unfold Pkg.Default.
  rewrite (New_returns _ Pkg.os_Stdout DebugIssuer _
             (delimited_name_valid (filepath_Base arg0)));
    [reflexivity | discriminate].
Qed.

Lemma Default_fields (arg0 : string) (d : Logger) :
  Pkg.Default arg0 = Ret d ->
  Name d = Ret (filepath_Base arg0) /\
  writer d = Some Pkg.os_Stdout /\
  as_locker (writer d) = None /\
  GetLevel d = DebugIssuer /\
  timeFormat d = "2006-01-02 15:04:05.000000" /\
  useUTC d = false /\
  severityNames d = ["debug:"; "info:"; "warn:"; "error:"; "fatal:"] /\
  well_formed d.
Proof.
  intros HD. rewrite Default_returns in HD. injection HD as <-.
  split.
  - rewrite Name_returns by exact (delimited_name_valid (filepath_Base arg0)).
    f_equal. exact (delimited_name_bare (filepath_Base arg0)).
  - repeat split; try reflexivity.
    + exact (delimited_name_valid (filepath_Base arg0)).
    + discriminate.
    + discriminate.
Qed.

(** X13: the logger [Default] starts as.  Whatever the path of the
    program is, its construction does not panic, and the logger is named
    after the base name of the program, writes to the standard output,
    which it does not lock, lets every level through, and has the default
    layout, local time and the default labels. *)
Theorem Default_logger (arg0 : string) :
  exists d,
    Pkg.Default arg0 = Ret d /\
    Name d = Ret (filepath_Base arg0) /\
    writer d = Some Pkg.os_Stdout /\
    as_locker (writer d) = None /\
    GetLevel d = DebugIssuer /\
    timeFormat d = "2006-01-02 15:04:05.000000" /\
    useUTC d = false /\
    severityNames d = ["debug:"; "info:"; "warn:"; "error:"; "fatal:"] /\
    well_formed d.
Proof.
  eexists. split; [apply Default_returns|].
  apply (Default_fields arg0). apply Default_returns.
Qed.

(** X14: logging through the package-level functions, on the logger
    [Default] starts as.  [Debug], [Info], [Warn] and [Error] write one
    line to the standard output, with no lock event, for every message that
    holds a component besides a leading marker: no level is filtered.  The
    line names the base name of the program between [": "] and [":"],
    followed by the default label of the level. *)
Theorem package_level_logging (env : Ambient) (arg0 : string) (d : Logger)
    (msg : list Value) (tr : Trace)
    (entry_point : Ambient -> Logger -> list Value -> Go (option string))
    (label : string) :
  Pkg.Default arg0 = Ret d ->
  In (entry_point, label)
     [(Pkg.Debug, "debug:"); (Pkg.Info, "info:"); (Pkg.Warn, "warn:");
      (Pkg.Error, "error:")] ->
  snd (split_caller msg) <> [] ->
  let skip := fst (split_caller msg) in
  let body := render (snd (split_caller msg)) in
  let site :=
    match runtime_Caller env (skip + 2)%Z with
    | Some (file, ln) =>
        " " ++ filepath_Base file ++ ":" ++ strconv_Itoa ln ++ ":"
    | None => ""
    end in
  let line :=
    time_Format (time_Now env) "2006-01-02 15:04:05.000000"
    ++ (": " ++ filepath_Base arg0 ++ ":") ++ label ++ site ++ " " ++ body
    ++ (if ends_with_newline body then "" else NL) in
  entry_point env d msg tr
  = (Ret (writer_Write Pkg.os_Stdout line tr),
     (tr ++ [EvWrite Pkg.os_Stdout line])%list).
Proof.
  intros HD Hin Hrest. rewrite Default_returns in HD. injection HD as <-.
  cbv zeta.
  set (d := mkLogger (": " ++ filepath_Base arg0 ++ ":") (Some Pkg.os_Stdout)
              DebugIssuer "2006-01-02 15:04:05.000000" false
              ["debug:"; "info:"; "warn:"; "error:"; "fatal:"]).
  assert (Hany : forall level,
            (level < DisableIssuer)%N ->
            nth_error (severityNames d) (N.to_nat level) = Some label ->
            Log env d level msg tr
            = (Ret (writer_Write Pkg.os_Stdout
                      (entry env d label (fst (split_caller msg))
                         (snd (split_caller msg))) tr),
               (tr ++ [EvWrite Pkg.os_Stdout
                         (entry env d label (fst (split_caller msg))
                            (snd (split_caller msg)))])%list)).
  { intros level Hlt Hlabel.
    destruct (Log_accepted env d level msg tr Pkg.os_Stdout eq_refl eq_refl
                (N.le_0_l level) Hlt Hrest) as [label' [Hlabel' HLog]].
    rewrite Hlabel in Hlabel'. injection Hlabel' as <-.
    cbv zeta in HLog. rewrite HLog. simpl. now rewrite !app_nil_r. }
  simpl in Hin.
  destruct Hin as [E | [E | [E | [E | []]]]]; injection E as <- <-.
  - exact (Hany DebugIssuer eq_refl eq_refl).
  - exact (Hany InfoIssuer eq_refl eq_refl).
  - exact (Hany WarnIssuer eq_refl eq_refl).
  - exact (Hany ErrorIssuer eq_refl eq_refl).
Qed.

(** X15: the package-level [Fatal] and [Fatalf], on the logger [Default]
    starts as, write the fatal line to the standard output and then always
    panic; the message of the panic is the base name of the program
    followed by ["fatal:"], and by the text of the write error when the
    write returned one. *)
Theorem package_level_fatal (env : Ambient) (arg0 : string) (d : Logger)
    (msg : list Value) (format : string) (args : list Value) (tr : Trace) :
  Pkg.Default arg0 = Ret d ->
  (exists err tr',
     Log env d FatalIssuer msg tr = (Ret err, tr') /\
     Pkg.Fatal env d msg tr
     = (Panicked (PanicMsg (match err with
                            | Some e => (filepath_Base arg0 ++ "fatal:") ++ e
                            | None => filepath_Base arg0 ++ "fatal:"
                            end)), tr')) /\
  (exists err tr',
     Log env d FatalIssuer [VString (fmt_Sprintf format args)] tr
     = (Ret err, tr') /\
     Pkg.Fatalf env d format args tr
     = (Panicked (PanicMsg (match err with
                            | Some e => (filepath_Base arg0 ++ "fatal:") ++ e
                            | None => filepath_Base arg0 ++ "fatal:"
                            end)), tr')).
Proof.
  intros HD.
  destruct (Default_fields arg0 d HD) as [HName [Hw [_ [_ [_ [_ [Hs _]]]]]]].
  assert (Hlabel : nth_error (severityNames d) (N.to_nat FatalIssuer)
                   = Some "fatal:") by (now rewrite Hs).
  assert (Hlen : List.length (severityNames d) = 5%nat) by (now rewrite Hs).
  assert (Hdest : writer d <> None) by (rewrite Hw; discriminate).
  split.
  - destruct (Log_returns env d FatalIssuer msg tr Hlen Hdest) as [err [tr' HLog]].
    exists err, tr'. split; [exact HLog|].
    unfold Pkg.Fatal. now apply panic_after_Log.
  - destruct (Log_returns env d FatalIssuer
                [VString (fmt_Sprintf format args)] tr Hlen Hdest)
      as [err [tr' HLog]].
    exists err, tr'. split; [exact HLog|].
    unfold Pkg.Fatalf. now apply panic_after_Log.
Qed.

(** X17: the package-level [Debugf], [Infof], [Warnf] and [Errorf], on the
    logger [Default] starts as, write one line to the standard output for
    every format and arguments, with no lock event; the call site is the
    frame at depth 2 and the message is the formatted text as it is. *)
Theorem package_level_formatted (env : Ambient) (arg0 : string) (d : Logger)
    (format : string) (args : list Value) (tr : Trace)
    (entry_point : Ambient -> Logger -> string -> list Value
                   -> Go (option string))
    (label : string) :
  Pkg.Default arg0 = Ret d ->
  In (entry_point, label)
     [(Pkg.Debugf, "debug:"); (Pkg.Infof, "info:"); (Pkg.Warnf, "warn:");
      (Pkg.Errorf, "error:")] ->
  let text := fmt_Sprintf format args in
  let site :=
    match runtime_Caller env 2%Z with
    | Some (file, ln) =>
        " " ++ filepath_Base file ++ ":" ++ strconv_Itoa ln ++ ":"
    | None => ""
    end in
  let line :=
    time_Format (time_Now env) "2006-01-02 15:04:05.000000"
    ++ (": " ++ filepath_Base arg0 ++ ":") ++ label ++ site ++ " " ++ text
    ++ (if ends_with_newline text then "" else NL) in
  entry_point env d format args tr
  = (Ret (writer_Write Pkg.os_Stdout line tr),
     (tr ++ [EvWrite Pkg.os_Stdout line])%list).
Proof.
  intros HD Hin. rewrite Default_returns in HD. injection HD as <-.
  cbv zeta.
  set (d := mkLogger (": " ++ filepath_Base arg0 ++ ":") (Some Pkg.os_Stdout)
              DebugIssuer "2006-01-02 15:04:05.000000" false
              ["debug:"; "info:"; "warn:"; "error:"; "fatal:"]).
  set (msg := [VString (fmt_Sprintf format args)]).
  assert (Hany : forall level,
            (level < DisableIssuer)%N ->
            nth_error (severityNames d) (N.to_nat level) = Some label ->
            Log env d level msg tr
            = (Ret (writer_Write Pkg.os_Stdout (entry env d label 0 msg) tr),
               (tr ++ [EvWrite Pkg.os_Stdout (entry env d label 0 msg)])%list)).
  { intros level Hlt Hlabel.
    destruct (Log_accepted env d level msg tr Pkg.os_Stdout eq_refl eq_refl
                (N.le_0_l level) Hlt) as [label' [Hlabel' HLog]];
      [discriminate|].
    rewrite Hlabel in Hlabel'. injection Hlabel' as <-.
    cbv zeta in HLog. rewrite HLog. simpl. now rewrite !app_nil_r. }
  simpl in Hin.
  destruct Hin as [E | [E | [E | [E | []]]]]; injection E as <- <-.
  - exact (Hany DebugIssuer eq_refl eq_refl).
  - exact (Hany InfoIssuer eq_refl eq_refl).
  - exact (Hany WarnIssuer eq_refl eq_refl).
  - exact (Hany ErrorIssuer eq_refl eq_refl).
Qed.

End PackageLevel.

Lemma package_level_logging_witness :
  @Pkg.Default Sample.platform "/usr/local/bin/billing"
  = Ret (mkLogger ": billing:" (Some Pkg.os_Stdout) DebugIssuer
           "2006-01-02 15:04:05.000000" false
           ["debug:"; "info:"; "warn:"; "error:"; "fatal:"]) /\
  Pkg.Info Sample.env
    (mkLogger ": billing:" (Some Pkg.os_Stdout) DebugIssuer
       "2006-01-02 15:04:05.000000" false
       ["debug:"; "info:"; "warn:"; "error:"; "fatal:"])
    [VString "ready"] []
  = (Ret None,
     [EvWrite Pkg.os_Stdout
        ("2024-01-02 03:04:05.000000: billing:info: main.go:42: ready" ++ NL)]).
Proof.
  assert (HD :
    @Pkg.Default Sample.platform "/usr/local/bin/billing"
    = Ret (mkLogger ": billing:" (Some Pkg.os_Stdout) DebugIssuer
             "2006-01-02 15:04:05.000000" false
             ["debug:"; "info:"; "warn:"; "error:"; "fatal:"]))
    by reflexivity.
  split; [exact HD|].
  apply (@package_level_logging Sample.platform Sample.env
           "/usr/local/bin/billing" _ [VString "ready"] []
           (@Pkg.Info Sample.platform) "info:" HD).
  - right. left. reflexivity.
  - discriminate.
Defined.

Lemma package_level_fatal_witness :
  exists err tr',
    Log Sample.env
      (mkLogger ": billing:" (Some Pkg.os_Stdout) DebugIssuer
         "2006-01-02 15:04:05.000000" false
         ["debug:"; "info:"; "warn:"; "error:"; "fatal:"])
      FatalIssuer [VString "no ledger"] [] = (Ret err, tr') /\
    Pkg.Fatal Sample.env
      (mkLogger ": billing:" (Some Pkg.os_Stdout) DebugIssuer
         "2006-01-02 15:04:05.000000" false
         ["debug:"; "info:"; "warn:"; "error:"; "fatal:"])
      [VString "no ledger"] []
    = (Panicked (PanicMsg (match err with
                           | Some e => ("billing" ++ "fatal:") ++ e
                           | None => "billing" ++ "fatal:"
                           end)), tr').
Proof.
  assert (HD :
    @Pkg.Default Sample.platform "/usr/local/bin/billing"
    = Ret (mkLogger ": billing:" (Some Pkg.os_Stdout) DebugIssuer
             "2006-01-02 15:04:05.000000" false
             ["debug:"; "info:"; "warn:"; "error:"; "fatal:"]))
    by reflexivity.
  exact (proj1 (@package_level_fatal Sample.platform Sample.env
                  "/usr/local/bin/billing" _ [VString "no ledger"] "" [] []
                  HD)).
Defined.

(** ** Fatal, in full *)

Section FatalMore.

Context `{P : Platform}.

(** X16: what [Fatal] and [Fatalf] leave behind.  On a well-formed logger
    whose minimum level lets [FatalIssuer] through, a [Fatal] whose message
    holds a component besides a leading marker first hands the fatal line
    to the destination, inside its lock when it has one, and releases the
    lock before the panic goes up; the message of the panic ends with the
    text of the error of that very write, when there is one.  [Fatalf]
    does the same with the formatted text as the message. *)
Theorem Fatal_writes_then_panics (env : Ambient) (l : Logger) (w : Writer)
    (msg : list Value) (format : string) (args : list Value) (tr : Trace) :
  well_formed l ->
  writer l = Some w ->
  (minLevel l <= FatalIssuer)%N ->
  snd (split_caller msg) <> [] ->
  exists bare label,
    Name l = Ret bare /\
    nth_error (severityNames l) (N.to_nat FatalIssuer) = Some label /\
    (let line :=
       entry env l label (fst (split_caller msg)) (snd (split_caller msg)) in
     Fatal env l msg tr
     = (Panicked
          (PanicMsg
             (match writer_Write w line (tr ++ lock_events w)%list with
              | Some e => (bare ++ label) ++ e
              | None => bare ++ label
              end)),
        (tr ++ lock_events w ++ [EvWrite w line] ++ unlock_events w)%list)) /\
    (let line := entry env l label 0 [VString (fmt_Sprintf format args)] in
     Fatalf env l format args tr
     = (Panicked
          (PanicMsg
             (match writer_Write w line (tr ++ lock_events w)%list with
              | Some e => (bare ++ label) ++ e
              | None => bare ++ label
              end)),
        (tr ++ lock_events w ++ [EvWrite w line] ++ unlock_events w)%list)).
Proof.
  intros [Hn Hdest Hm Hs] Hw Hmin Hrest.
  pose proof (Name_returns l Hn) as HName.
  destruct (Log_accepted env l FatalIssuer msg tr w Hs Hw Hmin eq_refl Hrest)
    as [label [Hlabel HLog]].
  destruct (Log_accepted env l FatalIssuer [VString (fmt_Sprintf format args)]
              tr w Hs Hw Hmin eq_refl) as [label' [Hlabel' HLogf]];
    [discriminate|].
  rewrite Hlabel in Hlabel'. injection Hlabel' as <-.
  eexists. exists label. split; [exact HName|]. split; [exact Hlabel|].
  cbv zeta in *. split.
  - unfold Fatal. now apply panic_after_Log.
  - unfold Fatalf. now apply panic_after_Log.
Qed.

End FatalMore.

Lemma Fatal_writes_then_panics_witness :
  Fatal Sample.env (Sample.svc (LockWriter 6) WarnIssuer)
    [VCaller 1; VString "halt"] []
  = (Panicked (PanicMsg "svcfatal:"),
     [EvLock (LockWriter 6);
      EvWrite (LockWriter 6)
        ("2024-01-02 03:04:05.000000: svc:fatal: run.go:7: halt" ++ NL);
      EvUnlock (LockWriter 6)]).
Proof.
  destruct (@Fatal_writes_then_panics Sample.platform Sample.env
              (Sample.svc (LockWriter 6) WarnIssuer) (LockWriter 6)
              [VCaller 1; VString "halt"] "" [] [])
    as [bare [label [HName [Hlabel [HFatal _]]]]].
  - apply sample_well_formed. vm_compute. discriminate.
  - reflexivity.
  - vm_compute. discriminate.
  - simpl. discriminate.
  - vm_compute in HName. injection HName as <-.
    vm_compute in Hlabel. injection Hlabel as <-.
    exact HFatal.
Defined.

Lemma package_level_formatted_witness :
  Pkg.Warnf Sample.env
    (mkLogger ": billing:" (Some Pkg.os_Stdout) DebugIssuer
       "2006-01-02 15:04:05.000000" false
       ["debug:"; "info:"; "warn:"; "error:"; "fatal:"])
    "ledger stale" [] []
  = (Ret None,
     [EvWrite Pkg.os_Stdout
        ("2024-01-02 03:04:05.000000: billing:warn: main.go:42: ledger stale"
         ++ NL)]).
Proof.
  assert (HD :
    @Pkg.Default Sample.platform "/usr/local/bin/billing"
    = Ret (mkLogger ": billing:" (Some Pkg.os_Stdout) DebugIssuer
             "2006-01-02 15:04:05.000000" false
             ["debug:"; "info:"; "warn:"; "error:"; "fatal:"]))
    by reflexivity.
  apply (@package_level_formatted Sample.platform Sample.env
           "/usr/local/bin/billing" _ "ledger stale" [] []
           (@Pkg.Warnf Sample.platform) "warn:" HD).
  right. right. left. reflexivity.
Defined.

(** ** UpdateWriter, case by case *)


